(** * piksi_tools console: the bounded log list and the settings reporter

    A shallow embedding of [piksi_tools/console/output_list.py] and
    [piksi_tools/console/settings_report.py], followed by the properties
    proved about them.

    Conventions of the embedding
    - Python [int] is [Z]; [str] is [string] (a sequence of 8-bit characters).
    - A method that mutates [self] is a function from the object to a result
      and the object afterwards; a raised exception is the [Raise] result, and
      the object it leaves behind is the one mutated up to the raise.
    - The clock read by [LogItem.__init__] is an argument ([now]) of the
      writing methods. *)

From Stdlib Require Import ZArith List String Ascii Bool Lia DecimalString.
Import ListNotations.

#[local] Open Scope string_scope.
#[local] Open Scope Z_scope.

(** ** Python results *)

Module py.

Inductive exn : Type :=
| AssertionError
| IndexError
| TypeError
| KeyError
| AttributeError
| TraitError
| OtherError (what : string).

Inductive result (A : Type) : Type :=
| Ok (a : A)
| Raise (e : exn).
Arguments Ok {A} a.
Arguments Raise {A} e.

(** [len(x)] of a list, as a Python int. *)
Definition len {A} (l : list A) : Z := Z.of_nat (List.length l).

(** [str(n)] / ["{}".format(n)] of an int: decimal, with a leading minus
    sign for negative numbers. *)
Definition str_of_int (n : Z) : string := NilZero.string_of_int (Z.to_int n).

(** The newline character. *)
Definition nl : ascii := ascii_of_nat 10.

(** Truth value of a string: non-empty. *)
Definition truthy (s : string) : bool :=
  match s with EmptyString => false | String _ _ => true end.

(** Whitespace characters of an 8-bit [str]: tab, newline, vertical tab,
    form feed, carriage return and space. *)
Definition is_space_char (c : ascii) : bool :=
  let n := nat_of_ascii c in
  ((9 <=? n) && (n <=? 13))%nat || (n =? 32)%nat.

Fixpoint all_space (s : string) : bool :=
  match s with
  | EmptyString => true
  | String c r => is_space_char c && all_space r
  end.

(** [s.isspace()]: at least one character, and only whitespace. *)
Definition isspace (s : string) : bool := truthy s && all_space s.

(** [c.lower()] of an 8-bit character: the letters A to Z go to a to z. *)
Definition lower_char (c : ascii) : ascii :=
  let n := nat_of_ascii c in
  if ((65 <=? n) && (n <=? 90))%nat then ascii_of_nat (n + 32) else c.

(** [s.lower()] *)
Fixpoint lower (s : string) : string :=
  match s with
  | EmptyString => EmptyString
  | String c r => String (lower_char c) (lower r)
  end.

(** A dict with keys compared by [eqb], as the list of its items in
    insertion order. *)
Section Dict.

Context {K V : Type} (eqb : K -> K -> bool).

(** [d.get(k, default)] *)
Fixpoint dict_get (d : list (K * V)) (k : K) (default : V) : V :=
  match d with
  | [] => default
  | (k', v) :: rest => if eqb k' k then v else dict_get rest k default
  end.

(** [d[k] = v] *)
Fixpoint dict_set (d : list (K * V)) (k : K) (v : V) : list (K * V) :=
  match d with
  | [] => [(k, v)]
  | (k', w) :: rest =>
      if eqb k' k then (k', v) :: rest else (k', w) :: dict_set rest k v
  end.

(** [d.update(other)] *)
Definition dict_update (d other : list (K * V)) : list (K * V) :=
  fold_left (fun d kv => dict_set d (fst kv) (snd kv)) other d.

End Dict.

End py.
Import py.

(** ** output_list.py *)

Module output_list.

(** These levels are identical to syslog levels. *)
Definition LOG_EMERG : Z := 0.
Definition LOG_ALERT : Z := 1.
Definition LOG_CRIT : Z := 2.
Definition LOG_ERROR : Z := 3.
Definition LOG_WARN : Z := 4.
Definition LOG_NOTICE : Z := 5.
Definition LOG_INFO : Z := 6.
Definition LOG_DEBUG : Z := 7.

Definition CONSOLE_LOG_LEVEL : Z := -1.
Definition DEFAULT_LOG_LEVEL : Z := -2.

(** The level tables, as association lists in source order. *)
Definition UNMASKABLE_LEVELS : list (Z * string) :=
  [(CONSOLE_LOG_LEVEL, "CONSOLE")].

Definition SYSLOG_LEVELS : list (Z * string) :=
  [(LOG_ERROR, "ERROR"); (LOG_WARN, "WARNING");
   (LOG_INFO, "INFO"); (LOG_DEBUG, "DEBUG")].

Definition keys {A B} (d : list (A * B)) : list A := map fst d.

(** [ALL_LOG_LEVELS = SYSLOG_LEVELS.copy()], then
    [ALL_LOG_LEVELS.update(UNMASKABLE_LEVELS)]. *)
Definition ALL_LOG_LEVELS : list (Z * string) :=
  dict_update Z.eqb SYSLOG_LEVELS UNMASKABLE_LEVELS.

(** The loop [for key, value in SYSLOG_LEVELS.items():
    SYSLOG_LEVELS_INVERSE[value.lower()] = key] on the empty dict. *)
Definition SYSLOG_LEVELS_INVERSE : list (string * Z) :=
  fold_left (fun inverse kv => dict_set String.eqb inverse (lower (snd kv)) (fst kv))
            SYSLOG_LEVELS [].

Definition DEFAULT_LOG_LEVEL_FILTER : string := "WARNING".

Definition DEFAULT_MAX_LEN : Z := 250.

(** [str_to_log_level(level_str)] *)
Definition str_to_log_level (level_str : string) : Z :=
  dict_get String.eqb SYSLOG_LEVELS_INVERSE (lower level_str) DEFAULT_LOG_LEVEL.

(** *** LogItem *)

Record LogItem : Type := mkLogItem {
  log_level : Z;
  timestamp : string;
  msg : string
}.

(** [LogItem(msg, level)], created when the clock reads [now]. *)
Definition LogItem_init (msg : string) (level : Z) (now : string) : LogItem :=
  {| log_level := level; timestamp := now; msg := msg |}.

(** The property [log_level_str]:
    [ALL_LOG_LEVELS.get(self.log_level, "UNKNOWN")]. *)
Definition log_level_str (self : LogItem) : string :=
  dict_get Z.eqb ALL_LOG_LEVELS (log_level self) "UNKNOWN".

Definition matches_log_level_filter (self : LogItem) (level : Z) : bool :=
  log_level self <=? level.

(** ["{0},{1},{2}\n".format(self.timestamp, self.log_level, self.msg)] *)
Definition print_to_log (self : LogItem) : string :=
  timestamp self ++ "," ++ str_of_int (log_level self) ++ "," ++ msg self
    ++ String nl EmptyString.

(** *** OutputList

    The three [List(LogItem)] traits, the [Enum] filter, [max_len]
    ([None] or an int), the [paused] flag, and the optional log file, kept
    as the sequence of strings passed to [logfile.write], oldest first. *)

Record OutputList : Type := mkOutputList {
  unfiltered_list : list LogItem;
  _paused_buffer : list LogItem;
  filtered_list : list LogItem;
  log_level_filter : Z;
  max_len : option Z;
  paused : bool;
  tfile : bool;
  logfile : list string
}.

Definition set_unfiltered_list (v : list LogItem) (self : OutputList) :=
  {| unfiltered_list := v; _paused_buffer := _paused_buffer self;
     filtered_list := filtered_list self;
     log_level_filter := log_level_filter self; max_len := max_len self;
     paused := paused self; tfile := tfile self; logfile := logfile self |}.

Definition set_paused_buffer (v : list LogItem) (self : OutputList) :=
  {| unfiltered_list := unfiltered_list self; _paused_buffer := v;
     filtered_list := filtered_list self;
     log_level_filter := log_level_filter self; max_len := max_len self;
     paused := paused self; tfile := tfile self; logfile := logfile self |}.

Definition set_filtered_list (v : list LogItem) (self : OutputList) :=
  {| unfiltered_list := unfiltered_list self;
     _paused_buffer := _paused_buffer self; filtered_list := v;
     log_level_filter := log_level_filter self; max_len := max_len self;
     paused := paused self; tfile := tfile self; logfile := logfile self |}.

Definition set_log_level_filter (v : Z) (self : OutputList) :=
  {| unfiltered_list := unfiltered_list self;
     _paused_buffer := _paused_buffer self;
     filtered_list := filtered_list self;
     log_level_filter := v; max_len := max_len self;
     paused := paused self; tfile := tfile self; logfile := logfile self |}.

Definition set_max_len (v : option Z) (self : OutputList) :=
  {| unfiltered_list := unfiltered_list self;
     _paused_buffer := _paused_buffer self;
     filtered_list := filtered_list self;
     log_level_filter := log_level_filter self; max_len := v;
     paused := paused self; tfile := tfile self; logfile := logfile self |}.

Definition set_paused (v : bool) (self : OutputList) :=
  {| unfiltered_list := unfiltered_list self;
     _paused_buffer := _paused_buffer self;
     filtered_list := filtered_list self;
     log_level_filter := log_level_filter self; max_len := max_len self;
     paused := v; tfile := tfile self; logfile := logfile self |}.

Definition logfile_write (line : string) (self : OutputList) :=
  {| unfiltered_list := unfiltered_list self;
     _paused_buffer := _paused_buffer self;
     filtered_list := filtered_list self;
     log_level_filter := log_level_filter self; max_len := max_len self;
     paused := paused self; tfile := tfile self;
     logfile := (logfile self ++ [line])%list |}.

(** A freshly constructed [OutputList(tfile)]: empty lists, the first value
    of [Enum(list(SYSLOG_LEVELS.keys()))] as filter, the default [max_len],
    not paused.  Opening the log file is taken to succeed. *)
Definition OutputList_init (tfile : bool) : OutputList :=
  {| unfiltered_list := []; _paused_buffer := []; filtered_list := [];
     log_level_filter := hd DEFAULT_LOG_LEVEL (keys SYSLOG_LEVELS);
     max_len := Some DEFAULT_MAX_LEN;
     paused := false; tfile := tfile; logfile := [] |}.

(** Methods are state transformers that may raise. *)
Definition M (A : Type) : Type := OutputList -> result A * OutputList.

Definition ret {A} (a : A) : M A := fun self => (Ok a, self).
Definition raise {A} (e : exn) : M A := fun self => (Raise e, self).
Definition bind {A B} (m : M A) (k : A -> M B) : M B :=
  fun self =>
    match m self with
    | (Ok a, self') => k a self'
    | (Raise e, self') => (Raise e, self')
    end.
Definition modify (f : OutputList -> OutputList) : M unit :=
  fun self => (Ok tt, f self).

Notation "m1 ;; m2" := (bind m1 (fun _ => m2))
  (at level 61, right associativity).
Notation "'when' b 'then' m" := (if b then m else ret tt)
  (at level 60, b at level 0, m at level 60).

(** The list objects a method can be handed: [append_truncate] receives one
    of the three lists of [self] and mutates it in place. *)
Inductive buffer_ref : Type :=
| Unfiltered
| PausedBuffer
| Filtered.

Definition deref (b : buffer_ref) (self : OutputList) : list LogItem :=
  match b with
  | Unfiltered => unfiltered_list self
  | PausedBuffer => _paused_buffer self
  | Filtered => filtered_list self
  end.

Definition assign (b : buffer_ref) (v : list LogItem) : OutputList -> OutputList :=
  match b with
  | Unfiltered => set_unfiltered_list v
  | PausedBuffer => set_paused_buffer v
  | Filtered => set_filtered_list v
  end.

(** [buffer.pop()]: drops the last element; [IndexError] on an empty list. *)
Definition pop (b : buffer_ref) : M unit :=
  fun self =>
    match deref b self with
    | [] => (Raise IndexError, self)
    | l => (Ok tt, assign b (removelast l) self)
    end.

(** [buffer.insert(0, s)] *)
Definition insert0 (b : buffer_ref) (s : LogItem) : M unit :=
  modify (fun self => assign b (s :: deref b self) self).

(** [append_truncate(self, buffer, s)].  With [max_len] set to [None] the
    comparison (or, where ints and [None] compare, the subtraction in the
    assertion) is a [TypeError]. *)
Definition append_truncate (buffer : buffer_ref) (s : LogItem) : M unit :=
  fun self =>
    match max_len self with
    | None => (Raise TypeError, self)
    | Some m =>
        ((when (len (deref buffer self) >? m) then
            ((if len (deref buffer self) - m =? 1
              then ret tt else raise AssertionError) ;;
             pop buffer)) ;;
         insert0 buffer s) self
    end.

(** [write(self, s)], called when the clock reads [now]. *)
Definition write (s now : string) : M unit :=
  when (truthy s && negb (isspace s)) then
    (let log := LogItem_init s CONSOLE_LOG_LEVEL now in
     (fun self =>
        (if paused self then
           append_truncate PausedBuffer log
         else
           (append_truncate Unfiltered log ;;
            (fun self =>
               (when (matches_log_level_filter log (log_level_filter self))
                then append_truncate Filtered log) self))) self) ;;
     (fun self =>
        (when (tfile self) then
           modify (logfile_write (print_to_log log))) self)).

(** [write_level(self, s, level)], called when the clock reads [now]. *)
Definition write_level (s : string) (level : Z) (now : string) : M unit :=
  when (truthy s && negb (isspace s)) then
    (let log := LogItem_init s level now in
     (fun self =>
        (if paused self then
           append_truncate PausedBuffer log
         else
           (append_truncate Unfiltered log ;;
            (fun self =>
               (when (matches_log_level_filter log (log_level_filter self))
                then append_truncate Filtered log) self))) self)).

(** [clear(self)] *)
Definition clear : M unit :=
  modify (set_paused_buffer []) ;;
  modify (set_filtered_list []) ;;
  modify (set_unfiltered_list []).

(** [_log_level_filter_changed(self)] *)
Definition _log_level_filter_changed : M unit :=
  modify (fun self =>
    set_filtered_list
      (filter (fun item => matches_log_level_filter item (log_level_filter self))
              (unfiltered_list self))
      self).

(** [_paused_changed(self)].  Assigning a list to a [List] trait stores a
    fresh trait list holding the same items, so [_paused_buffer] and
    [unfiltered_list] never are one list object: an append to the pause
    buffer leaves the live list alone until the resume copies it back. *)
Definition _paused_changed : M unit :=
  fun self =>
    (if paused self then
       modify (fun self => set_paused_buffer (unfiltered_list self) self)
     else
       (modify (fun self => set_unfiltered_list (_paused_buffer self) self) ;;
        _log_level_filter_changed ;;
        modify (set_paused_buffer []))) self.

(** *** Trait assignments

    Assigning to a trait validates the value, stores it, and runs the
    [_<name>_changed] handler when the stored value differs from the old
    one. *)

Definition assign_log_level_filter (v : Z) : M unit :=
  fun self =>
    if existsb (Z.eqb v) (keys SYSLOG_LEVELS) then
      if v =? log_level_filter self then (Ok tt, self)
      else (modify (set_log_level_filter v) ;; _log_level_filter_changed) self
    else (Raise TraitError, self).

Definition assign_paused (v : bool) : M unit :=
  fun self =>
    if Bool.eqb v (paused self) then (Ok tt, self)
    else (modify (set_paused v) ;; _paused_changed) self.

(** *** Clients

    What a client of an [OutputList] can do to it, and the states a
    sequence of such calls reaches from a fresh object whose [max_len] was
    configured.  A call that raises leaves the object as it was at the
    raise, and the client may go on calling. *)

Inductive call : Type :=
| Write (s now : string)
| WriteLevel (s : string) (level : Z) (now : string)
| Clear
| SetLogLevelFilter (v : Z)
| SetPaused (v : bool).

Definition step (c : call) : M unit :=
  match c with
  | Write s now => write s now
  | WriteLevel s level now => write_level s level now
  | Clear => clear
  | SetLogLevelFilter v => assign_log_level_filter v
  | SetPaused v => assign_paused v
  end.

(** Runs the calls in order; returns the exceptions raised, in order, and
    the final object. *)
Fixpoint run (cs : list call) (self : OutputList) : list exn * OutputList :=
  match cs with
  | [] => ([], self)
  | c :: cs' =>
      match step c self with
      | (Ok _, self') => run cs' self'
      | (Raise e, self') =>
          let '(es, self'') := run cs' self' in (e :: es, self'')
      end
  end.

Definition configured (tfile : bool) (m : option Z) : OutputList :=
  set_max_len m (OutputList_init tfile).

Inductive reachable (tfile : bool) (m : option Z) : OutputList -> Prop :=
| reachable_init : reachable tfile m (configured tfile m)
| reachable_step self c :
    reachable tfile m self -> reachable tfile m (snd (step c self)).

End output_list.

(** ** settings_report.py *)

Module settings_report.

(** Python values a settings mapping is made of.  A dict is the list of its
    items in iteration order. *)
#[local] Unset Elimination Schemes.
Inductive value : Type :=
| VNone
| VBool (b : bool)
| VInt (n : Z)
| VStr (s : string)
| VList (l : list value)
| VDict (items : list (value * value)).
#[local] Set Elimination Schemes.

Definition isinstance_str (v : value) : bool :=
  match v with VStr _ => true | _ => false end.

Definition isinstance_dict (v : value) : bool :=
  match v with VDict _ => true | _ => false end.

(** Is [k] the string key [name]? *)
Definition is_key (name : string) (k : value) : bool :=
  match k with VStr s => String.eqb s name | _ => false end.

(** [d.get(name)] on the items of a dict, for a string key. *)
Fixpoint lookup (name : string) (items : list (value * value)) : option value :=
  match items with
  | [] => None
  | (k, v) :: rest => if is_key name k then Some v else lookup name rest
  end.

(** [x[name]] for a string [name]: the value stored under the key,
    [KeyError] when a dict lacks it, [TypeError] when [x] is no dict. *)
Definition getitem (x : value) (name : string) : result value :=
  match x with
  | VDict items =>
      match lookup name items with
      | Some v => Ok v
      | None => Raise KeyError
      end
  | _ => Raise TypeError
  end.

(** [converted[name] = v] on the items of a dict: replaces the value of an
    existing key, adds a new key otherwise. *)
Fixpoint setitem (items : list (value * value)) (name : string) (v : value)
  : list (value * value) :=
  match items with
  | [] => [(VStr name, v)]
  | (k, w) :: rest =>
      if is_key name k then (k, v) :: rest
      else (k, w) :: setitem rest name v
  end.

(** What the code does to the outside world. *)
Inductive event : Type :=
| Print (line : string)
| HttpPost (url : string) (headers : list (string * string)) (data : string).

Definition is_network_call (e : event) : bool :=
  match e with HttpPost _ _ _ => true | Print _ => false end.

(** A computation: the events it caused, in order, and how it ended. *)
Definition IO (A : Type) : Type := list event * result A.

Definition io_ret {A} (a : A) : IO A := ([], Ok a).
Definition io_lift {A} (r : result A) : IO A := ([], r).
Definition io_bind {A B} (m : IO A) (k : A -> IO B) : IO B :=
  match m with
  | (tr, Ok a) => let '(tr', r) := k a in ((tr ++ tr')%list, r)
  | (tr, Raise e) => (tr, Raise e)
  end.
(** [print(line)]; the console it prints to is taken to accept the line. *)
Definition print (line : string) : IO unit := ([Print line], Ok tt).

(** [try: body  except: handler] with a bare [except]. *)
Definition try_except {A} (body : IO A) (handler : IO A) : IO A :=
  match body with
  | (tr, Ok a) => (tr, Ok a)
  | (tr, Raise _) => let '(tr', r) := handler in ((tr ++ tr')%list, r)
  end.

Notation "x <- m1 ;; m2" := (io_bind m1 (fun x => m2))
  (at level 61, m1 at next level, right associativity).
Notation "m1 ;;; m2" := (io_bind m1 (fun _ => m2))
  (at level 61, right associativity).

Definition URL : string :=
  "https://w096929iy3.execute-api.us-east-1.amazonaws.com/prof/catchConsole".

Definition HEADERS : list (string * string) :=
  [("content-type", "application/json"); ("x-amz-docs-region", "us-east-1")].

(** [requests.codes.ok] *)
Definition codes_ok : Z := 200.

Section WithLibraries.

(** The library functions the module calls:
    - [str(v)], the string form of a value;
    - [json.dumps((a, b))], which may raise;
    - [requests.post(url, headers=..., data=...)], which raises or answers
      with a response, of which only [status_code] is read. *)
Variable py_str : value -> string.
Variable json_dumps : value -> value -> result string.
Variable requests_post :
  string -> list (string * string) -> string -> result Z.

Definition post (url : string) (headers : list (string * string))
  (data : string) : IO Z :=
  ([HttpPost url headers data], requests_post url headers data).

(** [dict_values_to_strings(d)].  The loop runs over [d.iteritems()] and
    fills [converted]; [iteritems] of something that is no dict is an
    [AttributeError]. *)
Fixpoint dict_values_to_strings (d : value) : result value :=
  match d with
  | VDict items =>
      (fix loop (items converted : list (value * value)) {struct items}
         : result value :=
         match items with
         | [] => Ok (VDict converted)
         | (k, v) :: rest =>
             match k with
             | VStr name =>
                 if isinstance_dict v then
                   match dict_values_to_strings v with
                   | Ok c => loop rest (setitem converted name c)
                   | Raise e => Raise e
                   end
                 else loop rest (setitem converted name (VStr (py_str v)))
             | _ => Raise TypeError
             end
         end) items []
  | _ => Raise AttributeError
  end.

(** [post_data(uuid, data)] *)
Definition post_data (uuid data : value) : IO unit :=
  if negb (isinstance_str uuid) then
    print "post data: uuid is not a string"
  else if negb (isinstance_dict data) then
    print "post data: data is not a dict"
  else
    body <- io_lift (json_dumps uuid data) ;;
    status_code <- post URL HEADERS body ;;
    if negb (status_code =? codes_ok) then
      print "post data: failed to post data"
    else io_ret tt.

(** [SettingsReport(settings).report_settings()] *)
Definition report_settings (settings : value) : IO unit :=
  try_except
    (print "reporting settings" ;;;
     system_info <- io_lift (getitem settings "system_info") ;;
     uuid <- io_lift (getitem system_info "uuid") ;;
     data <- io_lift (dict_values_to_strings settings) ;;
     post_data (VStr (py_str uuid)) data ;;;
     print "reported settings")
    (print "report settings: failed to report settings").

End WithLibraries.

End settings_report.

Import output_list.
Import settings_report.

(** * Vocabulary of the statements *)

(** ** The log list *)

(** The buffer [append_truncate] leaves behind when it starts from a buffer
    of at most [m + 1] items: the new item in front, cut to [m + 1] items. *)
Definition push (m : Z) (s : LogItem) (l : list LogItem) : list LogItem :=
  firstn (Z.to_nat (m + 1)) (s :: l).

(** Every list holds at most [m + 1] items, [max_len] is [m], and the filter
    is one of the values of its [Enum]. *)
Record within_cap (m : Z) (self : OutputList) : Prop := mk_within_cap {
  cap_max_len : max_len self = Some m;
  cap_unfiltered : len (unfiltered_list self) <= m + 1;
  cap_paused : len (_paused_buffer self) <= m + 1;
  cap_filtered : len (filtered_list self) <= m + 1;
  cap_filter : In (log_level_filter self) (keys SYSLOG_LEVELS)
}.

(** The code [write] and [write_level] share: the item goes to the pause
    buffer when paused, to the live list and (if it passes) the filtered
    list otherwise. *)
Definition store (log : LogItem) : M unit :=
  fun self =>
    (if paused self then
       append_truncate PausedBuffer log
     else
       (append_truncate Unfiltered log ;;
        (fun self =>
           (when (matches_log_level_filter log (log_level_filter self))
            then append_truncate Filtered log) self))) self.

(** The condition both methods test: [s and not s.isspace()]. *)
Definition nonblank (s : string) : bool := truthy s && negb (isspace s).

(** The object [store] leaves behind when every list is under the cap. *)
Definition stored (m : Z) (log : LogItem) (self : OutputList) : OutputList :=
  if paused self then
    set_paused_buffer (push m log (_paused_buffer self)) self
  else
    let self1 := set_unfiltered_list (push m log (unfiltered_list self)) self in
    if matches_log_level_filter log (log_level_filter self) then
      set_filtered_list (push m log (filtered_list self)) self1
    else self1.

(** The item a call appends, if it appends one: the writes of a non-blank
    string. *)
Definition appended (c : call) : option LogItem :=
  match c with
  | Write s now =>
      if nonblank s then Some (LogItem_init s CONSOLE_LOG_LEVEL now) else None
  | WriteLevel s level now =>
      if nonblank s then Some (LogItem_init s level now) else None
  | _ => None
  end.

(** The filtered view in the words of the specification: the entries of the
    live list whose level is at most the threshold, in the same order. *)
Definition filtered_view (threshold : Z) (live : list LogItem) : list LogItem :=
  filter (fun e => log_level e <=? threshold) live.

(** No newline in a text. *)
Fixpoint no_newline (s : string) : bool :=
  match s with
  | EmptyString => true
  | String c r => negb (Ascii.eqb c nl) && no_newline r
  end.

(** A text is one line when its only newline is its last character. *)
Fixpoint one_line (s : string) : bool :=
  match s with
  | EmptyString => false
  | String c r =>
      match r with
      | EmptyString => Ascii.eqb c nl
      | String _ _ => negb (Ascii.eqb c nl) && one_line r
      end
  end.

(** A call of [write] or [write_level]. *)
Definition is_write (c : call) : bool :=
  match c with
  | Write _ _ | WriteLevel _ _ _ => true
  | _ => false
  end.

(** A text [write] logs: the [print_to_log] of a console item for a
    non-blank string. *)
Definition console_entry (text : string) : Prop :=
  exists s now,
    nonblank s = true
    /\ text = print_to_log (LogItem_init s CONSOLE_LOG_LEVEL now).

(** Every entry of the filtered list passes the current filter. *)
Definition shown_pass (self : OutputList) : Prop :=
  Forall (fun e => matches_log_level_filter e (log_level_filter self) = true)
         (filtered_list self).

(** ** The settings reporter *)

(** Every key is a string, in the dict and in the dicts nested in it as
    values, at every depth. *)
Fixpoint str_keys (d : value) : bool :=
  match d with
  | VDict items =>
      (fix all (items : list (value * value)) : bool :=
         match items with
         | [] => true
         | (k, v) :: rest => isinstance_str k && str_keys v && all rest
         end) items
  | _ => true
  end.

(** No key occurs twice, in the dict and in the dicts nested in it as values:
    what makes a list of items the items of a dict. *)
Fixpoint unique_keys (d : value) : Prop :=
  match d with
  | VDict items =>
      NoDup (map fst items)
      /\ (fix all (items : list (value * value)) : Prop :=
            match items with
            | [] => True
            | (_, v) :: rest => unique_keys v /\ all rest
            end) items
  | _ => True
  end.

(** Only strings and dicts of strings, under string keys. *)
Fixpoint only_strings (v : value) : bool :=
  match v with
  | VStr _ => true
  | VDict items =>
      (fix all (items : list (value * value)) : bool :=
         match items with
         | [] => true
         | (k, v) :: rest => isinstance_str k && only_strings v && all rest
         end) items
  | _ => false
  end.

Section Conversion.

Variable py_str : value -> string.

(** The conversion in the words of the specification: the same keys, a
    nested mapping converted in the same way, any other value replaced by
    its string form. *)
Fixpoint strings_of (v : value) : value :=
  match v with
  | VDict items =>
      VDict (map (fun kv => let '(k, w) := kv in (k, strings_of w)) items)
  | _ => VStr (py_str v)
  end.

(** The loop of [dict_values_to_strings], on its own. *)
Fixpoint convert_items (items converted : list (value * value))
  : result value :=
  match items with
  | [] => Ok (VDict converted)
  | (k, v) :: rest =>
      match k with
      | VStr name =>
          if isinstance_dict v then
            match dict_values_to_strings py_str v with
            | Ok c => convert_items rest (setitem converted name c)
            | Raise e => Raise e
            end
          else convert_items rest (setitem converted name (VStr (py_str v)))
      | _ => Raise TypeError
      end
  end.

End Conversion.

(** A string form for the values of the examples: strings as they are, ints
    in decimal, [None], [True] and [False] by name. *)
Definition example_str (v : value) : string :=
  match v with
  | VStr s => s
  | VInt n => str_of_int n
  | VNone => "None"
  | VBool true => "True"
  | VBool false => "False"
  | _ => "<object>"
  end.

(** The network calls among the events. *)
Definition network_calls (tr : list event) : list event :=
  filter is_network_call tr.

(** * Properties of output_list.py *)

(** ** Lists cut to a length *)

Lemma len_nil {A} : len (@nil A) = 0.
Proof. reflexivity. Qed.

Lemma len_cons {A} (a : A) l : len (a :: l) = len l + 1.
Proof. unfold len. simpl List.length. lia. Qed.

Lemma push_room m s l : 0 <= m -> len l <= m -> push m s l = s :: l.
Proof.
  unfold push, len. intros Hm Hl.
  replace (Z.to_nat (m + 1)) with (S (Z.to_nat m)) by lia.
  simpl. f_equal. apply firstn_all2. lia.
Qed.

Lemma push_full m s l :
  0 <= m -> len l = m + 1 -> push m s l = s :: removelast l.
Proof.
  unfold push, len. intros Hm Hl.
  replace (Z.to_nat (m + 1)) with (S (Z.to_nat m)) by lia.
  simpl. f_equal. rewrite removelast_firstn_len. f_equal. lia.
Qed.

Lemma len_push m s l : 0 <= m -> len (push m s l) <= m + 1.
Proof.
  unfold push, len. intros Hm. rewrite length_firstn. lia.
Qed.

Lemma firstn_app_firstn {A} (a b : list A) :
  forall n k, (n <= k)%nat -> firstn n (a ++ firstn k b) = firstn n (a ++ b).
Proof.
  induction a as [|x a IH]; intros n k Hnk; simpl.
  - rewrite firstn_firstn. f_equal. lia.
  - destruct n as [|n]; simpl; [reflexivity|]. f_equal. apply IH. lia.
Qed.

(** Pushing items one after the other is pushing them all at once. *)
Lemma fold_push m (items : list LogItem) :
  forall l, 0 <= m -> len l <= m + 1 ->
    fold_left (fun l s => push m s l) items l
    = firstn (Z.to_nat (m + 1)) (rev items ++ l).
Proof.
  induction items as [|s items IH]; intros l Hm Hl.
  - simpl. symmetry. apply firstn_all2. unfold len in Hl. lia.
  - simpl fold_left. rewrite IH by auto using len_push.
    unfold push. rewrite firstn_app_firstn by lia.
    simpl rev. now rewrite <- app_assoc.
Qed.

(** ** The cap on the three lists *)

Lemma deref_assign b v self : deref b (assign b v self) = v.
Proof. now destruct b. Qed.

Lemma assign_assign b v w self : assign b v (assign b w self) = assign b v self.
Proof. now destruct b. Qed.

Lemma within_cap_deref m b self :
  within_cap m self -> len (deref b self) <= m + 1.
Proof. intros []; now destruct b. Qed.

Lemma within_cap_assign m b v self :
  within_cap m self -> len v <= m + 1 -> within_cap m (assign b v self).
Proof. intros [] Hv; destruct b; constructor; auto. Qed.

Lemma within_cap_logfile_write m line self :
  within_cap m self -> within_cap m (logfile_write line self).
Proof. intros []; constructor; auto. Qed.

(** With room for the cap, [append_truncate] returns, leaving [push]. *)
Lemma append_truncate_push b s self m :
  max_len self = Some m -> 0 <= m -> len (deref b self) <= m + 1 ->
  append_truncate b s self = (Ok tt, assign b (push m s (deref b self)) self).
Proof.
  intros Hmax Hm Hlen. unfold append_truncate. rewrite Hmax.
  unfold bind, ret, raise, pop, insert0, modify.
  destruct (Z.gtb_spec (len (deref b self)) m) as [Hgt|Hle].
  - assert (Hfull : len (deref b self) = m + 1) by lia.
    rewrite Hfull. replace (m + 1 - m =? 1) with true by (symmetry; apply Z.eqb_eq; lia).
    rewrite push_full by assumption.
    destruct (deref b self) as [|x l] eqn:Hd.
    + rewrite len_nil in Hfull. lia.
    + now rewrite deref_assign, assign_assign.
  - rewrite push_room by lia. reflexivity.
Qed.

(** With [max_len = -1] and an empty list, the [pop] raises. *)
Lemma append_truncate_minus_one b s self :
  max_len self = Some (-1) -> deref b self = [] ->
  append_truncate b s self = (Raise IndexError, self).
Proof.
  intros Hmax Hd. unfold append_truncate. rewrite Hmax.
  unfold bind, ret, raise, pop, insert0, modify. rewrite Hd. cbn. now rewrite Hd.
Qed.

(** Under the cap, [append_truncate] either returns, leaving a capped list,
    or raises [IndexError] and leaves the object alone. *)
Lemma append_truncate_cases m b s self :
  -1 <= m -> within_cap m self ->
  (exists l, len l <= m + 1 /\
             append_truncate b s self = (Ok tt, assign b l self))
  \/ append_truncate b s self = (Raise IndexError, self).
Proof.
  intros Hm Hcap. pose proof (within_cap_deref m b self Hcap) as Hlen.
  destruct (Z.eq_dec m (-1)) as [->|Hne].
  - right. apply append_truncate_minus_one; [apply Hcap|].
    destruct (deref b self); [reflexivity|]. rewrite len_cons in Hlen.
    unfold len in Hlen. lia.
  - left. exists (push m s (deref b self)). split; [apply len_push; lia|].
    apply append_truncate_push; [apply Hcap|lia|assumption].
Qed.

(** ** The writing methods, by cases *)

Lemma write_level_unfold s level now :
  write_level s level now
  = when (nonblank s) then store (LogItem_init s level now).
Proof. reflexivity. Qed.

Lemma write_unfold s now :
  write s now
  = when (nonblank s) then
      (store (LogItem_init s CONSOLE_LOG_LEVEL now) ;;
       (fun self =>
          (when (tfile self) then
             modify (logfile_write
                       (print_to_log (LogItem_init s CONSOLE_LOG_LEVEL now))))
            self)).
Proof. reflexivity. Qed.

Lemma store_within_cap m log self :
  -1 <= m -> within_cap m self ->
  fst (store log self) <> Raise AssertionError
  /\ within_cap m (snd (store log self)).
Proof.
  intros Hm Hcap. unfold store. destruct (paused self).
  - destruct (append_truncate_cases m PausedBuffer log self Hm Hcap)
      as [(l & Hl & E)|E]; rewrite E; cbn [fst snd];
      (split; [discriminate|auto using within_cap_assign]).
  - unfold bind.
    destruct (append_truncate_cases m Unfiltered log self Hm Hcap)
      as [(l & Hl & E)|E]; rewrite E; [|simpl; split; [discriminate|auto]].
    pose proof (within_cap_assign m Unfiltered l self Hcap Hl) as Hcap1.
    destruct (matches_log_level_filter _ _).
    + destruct (append_truncate_cases m Filtered log _ Hm Hcap1)
        as [(l' & Hl' & E')|E']; rewrite E'; cbn [fst snd];
        (split; [discriminate|auto using within_cap_assign]).
    + simpl; split; [discriminate|auto].
Qed.

Lemma filter_len {A} (f : A -> bool) l : len (filter f l) <= len l.
Proof. unfold len. pose proof (filter_length_le f l). lia. Qed.

Ltac cap_fields Hcap :=
  destruct Hcap; constructor; cbn;
  rewrite ?len_nil; auto; try lia;
  try (etransitivity; [apply filter_len|assumption]).

(** Every call keeps the cap and passes the assertion. *)
Lemma step_within_cap m c self :
  -1 <= m -> within_cap m self ->
  fst (step c self) <> Raise AssertionError
  /\ within_cap m (snd (step c self)).
Proof.
  intros Hm Hcap. destruct c as [s now|s level now| |v|v]; simpl step.
  - rewrite write_unfold. destruct (nonblank s); [|simpl; split; [discriminate|auto]].
    unfold bind. destruct (store_within_cap m (LogItem_init s CONSOLE_LOG_LEVEL now) self Hm Hcap) as [Hr Hc].
    destruct (store _ self) as [[[]|e] self']; simpl in *; [|split; auto].
    destruct (tfile self'); simpl; split; auto using within_cap_logfile_write;
      discriminate.
  - rewrite write_level_unfold. destruct (nonblank s); [|simpl; split; [discriminate|auto]].
    apply store_within_cap; auto.
  - simpl. split; [discriminate|]. cap_fields Hcap.
  - unfold assign_log_level_filter.
    destruct (existsb _ _) eqn:Hin; [|simpl; split; [discriminate|auto]].
    destruct (v =? log_level_filter self); simpl; [split; [discriminate|auto]|].
    split; [discriminate|]. cap_fields Hcap.
    apply existsb_exists in Hin. destruct Hin as (x & Hx & Hvx).
    apply Z.eqb_eq in Hvx. now subst x.
  - unfold assign_paused. destruct (Bool.eqb v (paused self)); simpl;
      [split; [discriminate|auto]|].
    unfold _paused_changed, bind, modify; simpl. destruct v; simpl;
      (split; [discriminate|]); cap_fields Hcap.
Qed.

Lemma configured_within_cap tf m :
  -1 <= m -> within_cap m (configured tf (Some m)).
Proof.
  intros Hm. constructor; simpl; try rewrite len_nil; try lia; auto.
Qed.

Lemma reachable_within_cap tf m self :
  -1 <= m -> reachable tf (Some m) self -> within_cap m self.
Proof.
  intros Hm Hr. induction Hr as [|self c _ IH].
  - now apply configured_within_cap.
  - now apply step_within_cap.
Qed.

Lemma store_stored m log self :
  0 <= m -> within_cap m self -> store log self = (Ok tt, stored m log self).
Proof.
  intros Hm Hcap. unfold store, stored. destruct (paused self).
  - rewrite (append_truncate_push PausedBuffer log self m);
      auto using within_cap_deref. apply Hcap.
  - unfold bind.
    rewrite (append_truncate_push Unfiltered log self m);
      auto using within_cap_deref; [|apply Hcap].
    cbn [assign deref].
    change (log_level_filter (set_unfiltered_list _ self))
      with (log_level_filter self).
    destruct (matches_log_level_filter log (log_level_filter self));
      [|reflexivity].
    rewrite (append_truncate_push Filtered log _ m); auto.
    + apply Hcap.
    + apply Hcap.
Qed.

Lemma write_level_stored m s level now self :
  0 <= m -> within_cap m self -> nonblank s = true ->
  write_level s level now self
  = (Ok tt, stored m (LogItem_init s level now) self).
Proof.
  intros Hm Hcap Hs. rewrite write_level_unfold, Hs. now apply store_stored.
Qed.

Lemma write_stored m s now self :
  0 <= m -> within_cap m self -> nonblank s = true ->
  write s now self
  = (Ok tt,
     let log := LogItem_init s CONSOLE_LOG_LEVEL now in
     let self' := stored m log self in
     if tfile self then logfile_write (print_to_log log) self' else self').
Proof.
  intros Hm Hcap Hs. rewrite write_unfold, Hs. unfold bind.
  rewrite (store_stored m) by assumption.
  replace (tfile (stored m _ self)) with (tfile self).
  - now destruct (tfile self).
  - unfold stored. destruct (paused self); [reflexivity|].
    now destruct (matches_log_level_filter _ _).
Qed.

Lemma run_app cs1 cs2 self :
  run (cs1 ++ cs2) self
  = let '(es1, self1) := run cs1 self in
    let '(es2, self2) := run cs2 self1 in
    ((es1 ++ es2)%list, self2).
Proof.
  revert self. induction cs1 as [|c cs1 IH]; intros self; simpl.
  - now destruct (run cs2 self).
  - destruct (step c self) as [[[]|e] self']; rewrite IH;
      destruct (run cs1 self') as [es1 self1];
      now destruct (run cs2 self1).
Qed.

(** While paused, a run of appending calls pushes their items on the pause
    buffer and touches no other list, nor the filter or the flag. *)
Lemma run_paused_appends m cs :
  forall items self,
    0 <= m -> within_cap m self -> paused self = true ->
    map appended cs = map Some items ->
    exists self',
      run cs self = ([], self')
      /\ within_cap m self'
      /\ paused self' = true
      /\ _paused_buffer self'
         = fold_left (fun l s => push m s l) items (_paused_buffer self)
      /\ unfiltered_list self' = unfiltered_list self
      /\ filtered_list self' = filtered_list self
      /\ log_level_filter self' = log_level_filter self.
Proof.
  induction cs as [|c cs IH]; intros items self Hm Hcap Hp Hmap.
  - destruct items; [|discriminate]. exists self. simpl. auto 10.
  - destruct items as [|item items]; [discriminate|].
    simpl in Hmap. injection Hmap as Hc Hmap.
    assert (Hstep : exists self1,
               step c self = (Ok tt, self1)
               /\ within_cap m self1 /\ paused self1 = true
               /\ _paused_buffer self1 = push m item (_paused_buffer self)
               /\ unfiltered_list self1 = unfiltered_list self
               /\ filtered_list self1 = filtered_list self
               /\ log_level_filter self1 = log_level_filter self).
    { pose proof (step_within_cap m c self ltac:(lia) Hcap) as [_ Hcap1].
      destruct c as [s now|s level now| | |]; try discriminate;
        simpl in Hc; destruct (nonblank s) eqn:Hs; try discriminate;
        injection Hc as <-; simpl step in *.
      - rewrite (write_stored m) in * by assumption. unfold stored in *.
        rewrite Hp in *. eexists; split; [reflexivity|].
        split; [exact Hcap1|]. cbn [snd]. now destruct (tfile self).
      - rewrite (write_level_stored m) in * by assumption. unfold stored in *.
        rewrite Hp in *. eexists; split; [reflexivity|].
        split; [exact Hcap1|]. now cbn [snd]. }
    destruct Hstep as (self1 & E1 & Hcap1 & Hp1 & Hb1 & Hu1 & Hf1 & Ht1).
    destruct (IH items self1 Hm Hcap1 Hp1 Hmap)
      as (self' & E & Hcap' & Hp' & Hb' & Hu' & Hf' & Ht').
    exists self'. simpl run. rewrite E1, E. simpl fold_left.
    rewrite Hb', Hb1, Hu', Hu1, Hf', Hf1, Ht', Ht1. auto 10.
Qed.

(** ** The claims about the log list *)

(** C1 (the code departs from its documentation).  [max_len] is documented
    as the maximum allowed length and [append_truncate] as keeping the size
    below it, but the method evicts only when the list is already longer
    than [max_len], and only before inserting.  On a fresh [OutputList] with
    the default [max_len] of 250, after 251 calls of
    [write_level("x", LOG_INFO)] no call has raised and the live list holds
    251 items. *)
Lemma C1_live_buffer_exceeds_max_len :
  let self0 := OutputList_init false in
  let calls := repeat (WriteLevel "x" LOG_INFO "t") 251 in
  fst (run calls self0) = []
  /\ max_len (snd (run calls self0)) = Some 250
  /\ len (unfiltered_list (snd (run calls self0))) = 251.
Proof. vm_compute. auto. Qed.

(** C2.  After the filter threshold is changed to another value [v] of the
    [Enum], after [_log_level_filter_changed] itself, and after [paused] goes
    from true to false, the filtered list is exactly the entries of the live
    list whose level is at most the current threshold, in the same order;
    the two assignments return without raising. *)
Theorem C2_filtered_view_rebuilt (self : OutputList) (v : Z) :
  (In v (keys SYSLOG_LEVELS) -> v <> log_level_filter self ->
   let self' := snd (assign_log_level_filter v self) in
   fst (assign_log_level_filter v self) = Ok tt
   /\ log_level_filter self' = v
   /\ unfiltered_list self' = unfiltered_list self
   /\ filtered_list self' = filtered_view v (unfiltered_list self'))
  /\ (let self' := snd (_log_level_filter_changed self) in
      filtered_list self'
      = filtered_view (log_level_filter self') (unfiltered_list self'))
  /\ (paused self = true ->
      let self' := snd (assign_paused false self) in
      fst (assign_paused false self) = Ok tt
      /\ paused self' = false
      /\ filtered_list self'
         = filtered_view (log_level_filter self') (unfiltered_list self')).
Proof.
  split; [|split].
  - intros Hin Hne. unfold assign_log_level_filter.
    replace (existsb (Z.eqb v) (keys SYSLOG_LEVELS)) with true.
    + destruct (Z.eqb_spec v (log_level_filter self)); [contradiction|].
      cbn. auto.
    + symmetry. apply existsb_exists. exists v. split; [assumption|].
      apply Z.eqb_refl.
  - reflexivity.
  - intros Hp. unfold assign_paused. rewrite Hp. cbn. auto.
Qed.

(** C2 at work: two device messages, a pause and a third message; raising
    the threshold to [LOG_DEBUG] shows both live entries, resuming instead
    shows the one within [LOG_ERROR]. *)
Lemma C2_filtered_view_rebuilt_witness :
  let self :=
    snd (run [WriteLevel "a" LOG_ERROR "t1"; WriteLevel "b" LOG_DEBUG "t2";
              SetPaused true; WriteLevel "c" LOG_INFO "t3"]
             (OutputList_init false)) in
  filtered_list (snd (assign_log_level_filter LOG_DEBUG self))
  = [LogItem_init "b" LOG_DEBUG "t2"; LogItem_init "a" LOG_ERROR "t1"]
  /\ filtered_list (snd (assign_paused false self))
     = [LogItem_init "a" LOG_ERROR "t1"].
Proof.
  intro self.
  destruct (C2_filtered_view_rebuilt self LOG_DEBUG) as (Hset & _ & Hresume).
  split.
  - destruct Hset as (_ & _ & _ & ->).
    + simpl; auto.
    + discriminate.
    + reflexivity.
  - destruct Hresume as (_ & _ & ->); reflexivity.
Defined.

(** C3, as stated, fails: with [max_len = -2] the fresh object already has
    lists longer than [max_len + 1], and the first append fails the
    assertion. *)
Lemma C3_counterexample :
  ~ (forall tf m self,
        reachable tf (Some m) self ->
        (len (unfiltered_list self) <= m + 1
         /\ len (_paused_buffer self) <= m + 1
         /\ len (filtered_list self) <= m + 1)
        /\ forall c, fst (step c self) <> Raise AssertionError).
Proof.
  intros H.
  destruct (H false (-2) _ (reachable_init false (Some (-2)))) as [_ Hno].
  now apply (Hno (Write "x" "t")).
Qed.

(** C3, amended.  For every integer [max_len >= -1], in every state
    reachable from a fresh object by [write], [write_level], [clear], filter
    changes and pausing, each of the three lists holds at most [max_len + 1]
    items, and no call fails the assertion of [append_truncate]. *)
Theorem C3_cap_and_assertion (tf : bool) (m : Z) (self : OutputList) :
  -1 <= m ->
  reachable tf (Some m) self ->
  (len (unfiltered_list self) <= m + 1
   /\ len (_paused_buffer self) <= m + 1
   /\ len (filtered_list self) <= m + 1)
  /\ forall c, fst (step c self) <> Raise AssertionError.
Proof.
  intros Hm Hr. pose proof (reachable_within_cap tf m self Hm Hr) as Hcap.
  split.
  - destruct Hcap; auto.
  - intros c. now apply (step_within_cap m c self).
Qed.

(** C3 at work: [max_len = 0] and two console writes. *)
Lemma C3_cap_and_assertion_witness :
  let self :=
    snd (step (Write "b" "t2")
           (snd (step (Write "a" "t1") (configured false (Some 0))))) in
  (len (unfiltered_list self) <= 0 + 1
   /\ len (_paused_buffer self) <= 0 + 1
   /\ len (filtered_list self) <= 0 + 1)
  /\ forall c, fst (step c self) <> Raise AssertionError.
Proof.
  intro self. apply (C3_cap_and_assertion false 0 self).
  - lia.
  - apply reachable_step, reachable_step, reachable_init.
Defined.

(** C4.  From an unpaused object whose live list is under the cap of a
    [max_len >= 0], setting [paused] to true, making calls that append the
    items [items] (writes of non-blank strings), and setting [paused] back to
    false raises nothing and leaves: as live list, the items newest first in
    front of the live list from before the pause, cut to the [max_len + 1]
    items [append_truncate] keeps; an empty pause buffer; and as filtered
    list the entries of the new live list that pass the threshold. *)
Theorem C4_pause_append_resume
  (m : Z) (self : OutputList) (cs : list call) (items : list LogItem) :
  0 <= m ->
  within_cap m self ->
  paused self = false ->
  map appended cs = map Some items ->
  let self' := snd (run (SetPaused true :: cs ++ [SetPaused false]) self) in
  fst (run (SetPaused true :: cs ++ [SetPaused false]) self) = []
  /\ unfiltered_list self'
     = firstn (Z.to_nat (m + 1)) (rev items ++ unfiltered_list self)
  /\ _paused_buffer self' = []
  /\ paused self' = false
  /\ filtered_list self'
     = filtered_view (log_level_filter self') (unfiltered_list self').
Proof.
  intros Hm Hcap Hp Hmap.
  set (self1 := set_paused_buffer (unfiltered_list self) (set_paused true self)).
  assert (E1 : step (SetPaused true) self = (Ok tt, self1)).
  { simpl. unfold assign_paused. rewrite Hp. cbn. reflexivity. }
  assert (Hcap1 : within_cap m self1) by (subst self1; cap_fields Hcap).
  destruct (run_paused_appends m cs items self1 Hm Hcap1 eq_refl Hmap)
    as (self2 & E2 & Hcap2 & Hp2 & Hb2 & Hu2 & Hf2 & Ht2).
  cbn zeta. change (run (SetPaused true :: cs ++ [SetPaused false]) self)
    with (match step (SetPaused true) self with
          | (Ok _, s) => run (cs ++ [SetPaused false]) s
          | (Raise e, s) =>
              let '(es, s') := run (cs ++ [SetPaused false]) s in (e :: es, s')
          end).
  rewrite E1, run_app, E2. simpl run. unfold assign_paused. rewrite Hp2.
  cbn. rewrite Hb2. subst self1. cbn.
  rewrite fold_push by (auto; apply Hcap). auto.
Qed.

(** C4 at work: [max_len = 1], one old entry, two entries while paused. *)
Lemma C4_pause_append_resume_witness :
  let self :=
    snd (run [Write "old" "t0"] (configured false (Some 1))) in
  unfiltered_list
    (snd (run (SetPaused true ::
               [Write "a" "t1"; WriteLevel "b" LOG_WARN "t2"]
               ++ [SetPaused false]) self))
  = [LogItem_init "b" LOG_WARN "t2"; LogItem_init "a" CONSOLE_LOG_LEVEL "t1"].
Proof.
  intro self.
  destruct (C4_pause_append_resume 1 self
              [Write "a" "t1"; WriteLevel "b" LOG_WARN "t2"]
              [LogItem_init "a" CONSOLE_LOG_LEVEL "t1";
               LogItem_init "b" LOG_WARN "t2"])
    as (_ & E & _); [lia| | | |rewrite E; reflexivity].
  - constructor; simpl; auto; unfold len; simpl; lia.
  - reflexivity.
  - reflexivity.
Defined.

(** C5.  For a string that is empty or made of whitespace only, [write] and
    [write_level] return without raising and leave the object, with its three
    lists and its log file, as it was: no item is created. *)
Theorem C5_blank_is_ignored
  (self : OutputList) (s : string) (level : Z) (now : string) :
  s = "" \/ all_space s = true ->
  write s now self = (Ok tt, self)
  /\ write_level s level now self = (Ok tt, self).
Proof.
  intros Hs. assert (Hb : nonblank s = false).
  { unfold nonblank, isspace. destruct Hs as [-> | ->]; [reflexivity|].
    now destruct (truthy s). }
  rewrite write_unfold, write_level_unfold, Hb. auto.
Qed.

(** C5 at work: a space and a newline. *)
Lemma C5_blank_is_ignored_witness :
  let self := snd (run [Write "old" "t0"] (OutputList_init true)) in
  let s := String " " (String nl "") in
  write s "t" self = (Ok tt, self)
  /\ write_level s LOG_ERROR "t" self = (Ok tt, self).
Proof.
  intros self s. apply (C5_blank_is_ignored self s LOG_ERROR "t").
  right. reflexivity.
Defined.

(** *** The log file *)

Lemma one_line_app a b :
  no_newline a = true -> one_line b = true -> one_line (a ++ b) = true.
Proof.
  intros Ha Hb. induction a as [|c a IH]; [exact Hb|].
  simpl in Ha. apply andb_true_iff in Ha as [Hc Ha]. specialize (IH Ha).
  change (one_line (String c (a ++ b)) = true).
  simpl one_line. destruct (a ++ b); [discriminate|].
  rewrite Hc. exact IH.
Qed.

Lemma no_newline_str_of_int n : no_newline (str_of_int n) = true.
Proof.
  unfold str_of_int.
  assert (Hu : forall u, no_newline (NilEmpty.string_of_uint u) = true)
    by (induction u; simpl; auto).
  assert (Hz : forall u, no_newline (NilZero.string_of_uint u) = true)
    by (intros []; simpl; auto).
  destruct (Z.to_int n); simpl; auto.
Qed.

(** C8, as stated, fails.  With the log file enabled, [write] of a message
    holding a newline logs an entry of two lines; and [write_level] of a
    non-blank message appends the item to the live list and writes nothing
    to the log file. *)
Lemma C8_counterexample :
  (let self :=
     snd (write (String "a" (String nl "b")) "t" (OutputList_init true)) in
   exists entry, logfile self = [entry] /\ one_line entry = false)
  /\ (let self := snd (write_level "x" LOG_INFO "t" (OutputList_init true)) in
      unfiltered_list self = [LogItem_init "x" LOG_INFO "t"]
      /\ logfile self = []).
Proof.
  split.
  - eexists. split; reflexivity.
  - split; reflexivity.
Qed.

(** C8, amended.  The text [print_to_log] gives for an item is its
    timestamp, its level in decimal and its message, separated by commas and
    ended by a newline; it is one line when neither the timestamp nor the
    message holds a newline.  With the log file enabled and the lists under
    the cap of a [max_len >= 0], [write] of a non-blank string, paused or
    not, returns without raising and adds exactly that one text, for the
    item it appended, to the log file. *)
Theorem C8_write_logs_one_entry
  (m : Z) (self : OutputList) (s now : string) :
  0 <= m ->
  within_cap m self ->
  tfile self = true ->
  nonblank s = true ->
  let entry := now ++ ",-1," ++ s ++ String nl EmptyString in
  (forall item,
      print_to_log item
      = timestamp item ++ "," ++ str_of_int (log_level item) ++ ","
          ++ msg item ++ String nl EmptyString
      /\ (no_newline (timestamp item) = true ->
          no_newline (msg item) = true ->
          one_line (print_to_log item) = true))
  /\ fst (write s now self) = Ok tt
  /\ logfile (snd (write s now self)) = (logfile self ++ [entry])%list
  /\ hd_error (if paused self
               then _paused_buffer (snd (write s now self))
               else unfiltered_list (snd (write s now self)))
     = Some (LogItem_init s CONSOLE_LOG_LEVEL now).
Proof.
  intros Hm Hcap Ht Hs entry. split; [|rewrite (write_stored m) by assumption].
  - intros item. split; [reflexivity|]. intros Hts Hmsg.
    unfold print_to_log.
    repeat (apply one_line_app;
            [assumption || apply no_newline_str_of_int || reflexivity|]).
    reflexivity.
  - rewrite Ht. cbn [fst snd]. unfold stored, push.
    replace (Z.to_nat (m + 1)) with (S (Z.to_nat m)) by lia.
    destruct (paused self); [auto|].
    destruct (matches_log_level_filter _ _); auto.
Qed.

(** C8 at work: a console write while paused, log file enabled. *)
Lemma C8_write_logs_one_entry_witness :
  let self := snd (run [SetPaused true] (OutputList_init true)) in
  logfile (snd (write "hello" "Nov 03 2026 10:00:00" self))
  = ["Nov 03 2026 10:00:00,-1,hello" ++ String nl EmptyString].
Proof.
  intro self.
  destruct (C8_write_logs_one_entry 250 self "hello" "Nov 03 2026 10:00:00")
    as (_ & _ & E & _); [lia| | | |rewrite E; reflexivity].
  - constructor; simpl; auto; unfold len; simpl; lia.
  - reflexivity.
  - reflexivity.
Defined.

(** C9.  On an empty, unpaused list with a [max_len >= 0] and the filter at
    [LOG_ERROR], [write_level("hello", LOG_WARN)] followed by
    [write_level("world", LOG_ERROR)] raises nothing and leaves a filtered
    list of exactly one entry, the one with message "world" and level
    [LOG_ERROR]. *)
Theorem C9_hello_world (tf : bool) (m : Z) (t1 t2 : string) :
  0 <= m ->
  let self0 := set_log_level_filter LOG_ERROR (configured tf (Some m)) in
  let calls := [WriteLevel "hello" LOG_WARN t1; WriteLevel "world" LOG_ERROR t2] in
  fst (run calls self0) = []
  /\ filtered_list (snd (run calls self0))
     = [{| log_level := LOG_ERROR; timestamp := t2; msg := "world" |}].
Proof.
  intros Hm self0 calls.
  assert (Hcap0 : within_cap m self0).
  { constructor; simpl; rewrite ?len_nil; auto; lia. }
  subst calls. simpl run.
  rewrite (write_level_stored m) by auto.
  assert (Hcap1 : within_cap m (stored m (LogItem_init "hello" LOG_WARN t1) self0)).
  { pose proof (step_within_cap m (WriteLevel "hello" LOG_WARN t1) self0
                  ltac:(lia) Hcap0) as [_ H].
    simpl step in H. now rewrite (write_level_stored m) in H by auto. }
  rewrite (write_level_stored m) by auto.
  cbn. split; [reflexivity|]. apply push_room; [assumption|].
  rewrite len_nil. lia.
Qed.

(** C9 at work, with the default [max_len]. *)
Lemma C9_hello_world_witness :
  filtered_list
    (snd (run [WriteLevel "hello" LOG_WARN "t1"; WriteLevel "world" LOG_ERROR "t2"]
              (set_log_level_filter LOG_ERROR
                 (configured false (Some DEFAULT_MAX_LEN)))))
  = [{| log_level := LOG_ERROR; timestamp := "t2"; msg := "world" |}].
Proof.
  apply (C9_hello_world false DEFAULT_MAX_LEN "t1" "t2"). unfold DEFAULT_MAX_LEN. lia.
Defined.

(** C10.  An item of level [CONSOLE_LOG_LEVEL] passes every threshold the
    filter can be set to (every key of [SYSLOG_LEVELS]); so in every state
    reachable with a [max_len >= 0], whatever the threshold, [write] of a
    non-blank string while not paused returns without raising and puts its
    item at the front of the filtered list. *)
Theorem C10_console_unmaskable
  (tf : bool) (m : Z) (self : OutputList) (s now : string) :
  0 <= m ->
  reachable tf (Some m) self ->
  paused self = false ->
  nonblank s = true ->
  let log := LogItem_init s CONSOLE_LOG_LEVEL now in
  (forall threshold,
      In threshold (keys SYSLOG_LEVELS) ->
      matches_log_level_filter log threshold = true)
  /\ fst (write s now self) = Ok tt
  /\ filtered_list (snd (write s now self))
     = log :: firstn (Z.to_nat m) (filtered_list self).
Proof.
  intros Hm Hr Hp Hs log.
  assert (Hpass : forall threshold,
             In threshold (keys SYSLOG_LEVELS) ->
             matches_log_level_filter log threshold = true).
  { intros threshold Hin. unfold matches_log_level_filter. simpl.
    apply Z.leb_le. simpl in Hin.
    unfold CONSOLE_LOG_LEVEL, LOG_ERROR, LOG_WARN, LOG_INFO, LOG_DEBUG in *.
    lia. }
  split; [exact Hpass|].
  pose proof (reachable_within_cap tf m self ltac:(lia) Hr) as Hcap.
  rewrite (write_stored m) by assumption. cbn [fst snd]. split; [reflexivity|].
  fold log. unfold stored. rewrite Hp, (Hpass _ (cap_filter _ _ Hcap)).
  unfold push. replace (Z.to_nat (m + 1)) with (S (Z.to_nat m)) by lia.
  now destruct (tfile self).
Qed.

(** C10 at work: the filter at its strictest, [LOG_ERROR]. *)
Lemma C10_console_unmaskable_witness :
  let self :=
    snd (step (WriteLevel "dev" LOG_DEBUG "t0")
           (configured false (Some 250))) in
  filtered_list (snd (write "hello" "t1" self))
  = [LogItem_init "hello" CONSOLE_LOG_LEVEL "t1"].
Proof.
  intro self.
  destruct (C10_console_unmaskable false 250 self "hello" "t1")
    as (_ & _ & E); [lia| | | |rewrite E; reflexivity].
  - apply reachable_step, reachable_init.
  - reflexivity.
  - reflexivity.
Defined.

(** * Properties of settings_report.py *)

(** Induction on a value through the values of dicts, the only way
    [dict_values_to_strings] descends. *)
Section ValueInduction.

Variable P : value -> Prop.
Hypothesis P_other : forall v, isinstance_dict v = false -> P v.
Hypothesis P_dict :
  forall items, Forall (fun kv => P (snd kv)) items -> P (VDict items).

Fixpoint value_dict_ind (v : value) : P v :=
  match v with
  | VDict items =>
      P_dict items
        ((fix values (items : list (value * value))
            : Forall (fun kv => P (snd kv)) items :=
            match items with
            | [] => Forall_nil _
            | (k, w) :: rest =>
                Forall_cons (k, w) (value_dict_ind w) (values rest)
            end) items)
  | VNone => P_other VNone eq_refl
  | VBool b => P_other (VBool b) eq_refl
  | VInt n => P_other (VInt n) eq_refl
  | VStr s => P_other (VStr s) eq_refl
  | VList l => P_other (VList l) eq_refl
  end.

End ValueInduction.

Lemma is_key_true name k : is_key name k = true <-> k = VStr name.
Proof.
  destruct k; simpl; try (split; intros; discriminate).
  rewrite String.eqb_eq. split; [now intros ->|now intros [= ->]].
Qed.

Lemma setitem_fresh items name v :
  ~ In (VStr name) (map fst items) ->
  setitem items name v = (items ++ [(VStr name, v)])%list.
Proof.
  induction items as [|[k w] rest IH]; intros Hfresh; [reflexivity|].
  simpl in *. destruct (is_key name k) eqn:Hk.
  - apply is_key_true in Hk. tauto.
  - now rewrite IH by tauto.
Qed.

Section SettingsReportProperties.

#[local] Set Default Proof Using "Type".

Variable py_str : value -> string.
Variable json_dumps : value -> value -> result string.
Variable requests_post :
  string -> list (string * string) -> string -> result Z.

Lemma dict_values_to_strings_unfold items :
  dict_values_to_strings py_str (VDict items) = convert_items py_str items [].
Proof. reflexivity. Qed.

(** A dict converts when all its keys are strings, and raises [TypeError]
    when one is not. *)
Lemma dict_values_to_strings_result d :
  isinstance_dict d = true ->
  if str_keys d
  then exists c, dict_values_to_strings py_str d = Ok c
  else dict_values_to_strings py_str d = Raise TypeError.
Proof.
  induction d as [v Hv|items IH] using value_dict_ind;
    intros Hd; [congruence|clear Hd].
  rewrite dict_values_to_strings_unfold. simpl str_keys.
  generalize (@nil (value * value)).
  induction items as [|[k v] rest IHrest]; intros acc; simpl.
  - now eexists.
  - inversion IH as [|? ? Hv Hrest]; subst. simpl in Hv.
    destruct k; simpl; try reflexivity.
    destruct (isinstance_dict v) eqn:Hdv.
    + specialize (Hv eq_refl). destruct (str_keys v); simpl.
      * destruct Hv as [c ->]. apply IHrest, Hrest.
      * now rewrite Hv.
    + replace (str_keys v) with true by (now destruct v).
      simpl. apply IHrest, Hrest.
Qed.

Lemma convert_items_strings_of items :
  Forall (fun kv =>
            str_keys (snd kv) = true -> unique_keys (snd kv) ->
            isinstance_dict (snd kv) = true ->
            dict_values_to_strings py_str (snd kv) = Ok (strings_of py_str (snd kv)))
         items ->
  forall acc,
    str_keys (VDict items) = true ->
    unique_keys (VDict items) ->
    NoDup (map fst acc ++ map fst items) ->
    convert_items py_str items acc
    = Ok (VDict (acc ++ map (fun kv => let '(k, w) := kv in (k, strings_of py_str w))
                            items)).
Proof.
  induction 1 as [|[k v] rest Hv _ IH]; intros acc Hs Hu Hnd.
  - simpl. now rewrite app_nil_r.
  - simpl in Hs, Hu, Hv. destruct Hu as [Hnd0 [Huv Hur]].
    apply andb_true_iff in Hs as [Hs Hsr].
    apply andb_true_iff in Hs as [Hk Hsv].
    destruct k; try discriminate. simpl convert_items.
    assert (Hfresh : ~ In (VStr s) (map fst acc)).
    { intros Hin. apply NoDup_remove_2 in Hnd. apply Hnd.
      apply in_or_app. now left. }
    assert (Hnd' : forall c,
               NoDup (map fst (acc ++ [(VStr s, c)]) ++ map fst rest)).
    { intros c. rewrite map_app, <- app_assoc. exact Hnd. }
    assert (Hur' : unique_keys (VDict rest)).
    { simpl. split; [now inversion Hnd0|exact Hur]. }
    destruct (isinstance_dict v) eqn:Hdv.
    + rewrite (Hv Hsv Huv eq_refl), setitem_fresh by assumption.
      rewrite IH by auto. simpl map. now rewrite <- app_assoc.
    + rewrite setitem_fresh by assumption.
      rewrite IH by auto. simpl map. rewrite <- app_assoc.
      now destruct v.
Qed.

Lemma dict_values_to_strings_strings_of d :
  str_keys d = true -> unique_keys d -> isinstance_dict d = true ->
  dict_values_to_strings py_str d = Ok (strings_of py_str d).
Proof.
  induction d as [v Hv|items IH] using value_dict_ind;
    intros Hs Hu Hd; [congruence|].
  rewrite dict_values_to_strings_unfold.
  rewrite convert_items_strings_of; auto.
  simpl. destruct Hu as [Hnd _]. exact Hnd.
Qed.

Lemma only_strings_strings_of d :
  str_keys d = true -> only_strings (strings_of py_str d) = true.
Proof.
  induction d as [v Hv|items IH] using value_dict_ind; intros Hs.
  - now destruct v.
  - simpl in *. induction IH as [|[k v] rest Hv _ IHrest]; [reflexivity|].
    simpl in *. apply andb_true_iff in Hs as [Hs Hsr].
    apply andb_true_iff in Hs as [Hk Hsv].
    now rewrite Hk, Hv, IHrest.
Qed.

(** ** The claims about the settings reporter *)

(** C6.  [report_settings] returns normally on every settings value,
    whatever the libraries do; [post_data] given a uuid that is no string,
    or data that is no dict, returns without calling the network; and
    [report_settings] on the empty mapping calls no network. *)
Theorem C6_report_swallows_errors :
  (forall settings,
      snd (report_settings py_str json_dumps requests_post settings) = Ok tt)
  /\ (forall uuid data,
         isinstance_str uuid = false \/ isinstance_dict data = false ->
         snd (post_data json_dumps requests_post uuid data) = Ok tt
         /\ existsb is_network_call
              (fst (post_data json_dumps requests_post uuid data)) = false)
  /\ existsb is_network_call
       (fst (report_settings py_str json_dumps requests_post (VDict [])))
     = false.
Proof.
  split; [|split].
  - intros settings. unfold report_settings, try_except.
    match goal with
    | |- snd (match ?body with _ => _ end) = _ =>
        destruct body as [tr [[]|e]]; reflexivity
    end.
  - intros uuid data [H|H]; unfold post_data.
    + rewrite H. split; reflexivity.
    + rewrite H. destruct (isinstance_str uuid); split; reflexivity.
  - reflexivity.
Qed.

(** C7.  On a dict whose keys are strings at every nesting depth,
    [dict_values_to_strings] returns the dict with the same keys in which
    each nested dict is converted in the same way and every other value is
    replaced by its string form, and that result holds only strings and
    dicts of strings; on a dict with a key that is no string, at any
    nesting depth, it raises [TypeError]. *)
Theorem C7_dict_values_to_strings (items : list (value * value)) :
  let d := VDict items in
  (str_keys d = true -> unique_keys d ->
   dict_values_to_strings py_str d = Ok (strings_of py_str d)
   /\ (exists out, strings_of py_str d = VDict out /\ map fst out = map fst items)
   /\ only_strings (strings_of py_str d) = true)
  /\ (str_keys d = false ->
      dict_values_to_strings py_str d = Raise TypeError).
Proof.
  intros d. split.
  - intros Hs Hu. split; [|split].
    + now apply dict_values_to_strings_strings_of.
    + eexists. split; [reflexivity|].
      rewrite map_map. apply map_ext. now intros [k v].
    + now apply only_strings_strings_of.
  - intros Hs. pose proof (dict_values_to_strings_result d eq_refl) as H.
    now rewrite Hs in H.
Qed.

End SettingsReportProperties.

(** C6 at work: an int as uuid. *)
Lemma C6_report_swallows_errors_witness :
  let dumps := fun _ _ : value => Ok "[]" in
  let post := fun (_ : string) (_ : list (string * string)) (_ : string) =>
                @Ok Z 200 in
  (isinstance_str (VInt 7) = false \/ isinstance_dict (VDict []) = false)
  /\ snd (post_data dumps post (VInt 7) (VDict [])) = Ok tt
  /\ existsb is_network_call (fst (post_data dumps post (VInt 7) (VDict [])))
     = false.
Proof.
  intros dumps post.
  assert (H : isinstance_str (VInt 7) = false
              \/ isinstance_dict (VDict []) = false) by (left; reflexivity).
  split; [exact H|].
  exact (proj1 (proj2 (C6_report_swallows_errors example_str dumps post))
           (VInt 7) (VDict []) H).
Defined.

(** C7 at work: a nested dict with string keys, and one with an int key in
    the nested dict. *)
Lemma C7_dict_values_to_strings_witness :
  dict_values_to_strings example_str
    (VDict [(VStr "a", VInt 3); (VStr "b", VDict [(VStr "c", VNone)])])
  = Ok (VDict [(VStr "a", VStr "3"); (VStr "b", VDict [(VStr "c", VStr "None")])])
  /\ dict_values_to_strings example_str
       (VDict [(VStr "a", VInt 3); (VStr "b", VDict [(VInt 1, VNone)])])
     = Raise TypeError.
Proof.
  split.
  - destruct (C7_dict_values_to_strings example_str
                [(VStr "a", VInt 3); (VStr "b", VDict [(VStr "c", VNone)])])
      as [H _].
    destruct H as (E & _); [reflexivity| |rewrite E; reflexivity].
    simpl. repeat split; repeat constructor; simpl; intuition discriminate.
  - apply (C7_dict_values_to_strings example_str
             [(VStr "a", VInt 3); (VStr "b", VDict [(VInt 1, VNone)])]).
    reflexivity.
Defined.

(** * Further properties of output_list.py *)

(** ** Level names *)

Lemma str_to_log_level_cases (s : string) :
  (lower s = "error" /\ str_to_log_level s = LOG_ERROR)
  \/ (lower s = "warning" /\ str_to_log_level s = LOG_WARN)
  \/ (lower s = "info" /\ str_to_log_level s = LOG_INFO)
  \/ (lower s = "debug" /\ str_to_log_level s = LOG_DEBUG)
  \/ (lower s <> "error" /\ lower s <> "warning" /\ lower s <> "info"
      /\ lower s <> "debug" /\ str_to_log_level s = DEFAULT_LOG_LEVEL).
Proof.
  unfold str_to_log_level.
  change SYSLOG_LEVELS_INVERSE
    with [("error", LOG_ERROR); ("warning", LOG_WARN);
          ("info", LOG_INFO); ("debug", LOG_DEBUG)].
  cbn [dict_get]. rewrite !(String.eqb_sym _ (lower s)).
  destruct (String.eqb_spec (lower s) "error"); [tauto|].
  destruct (String.eqb_spec (lower s) "warning"); [tauto|].
  destruct (String.eqb_spec (lower s) "info"); [tauto|].
  destruct (String.eqb_spec (lower s) "debug"); tauto.
Qed.

Lemma in_syslog_levels (level : Z) :
  In level (keys SYSLOG_LEVELS) ->
  level = LOG_ERROR \/ level = LOG_WARN \/ level = LOG_INFO \/ level = LOG_DEBUG.
Proof. simpl. intuition. Qed.

(** X1.  For an item whose level is one of the filterable levels, the name
    shown in the table is the one [SYSLOG_LEVELS] gives, and
    [str_to_log_level] of that name is the item's level again. *)
Theorem X1_level_name_round_trip (item : LogItem) :
  In (log_level item) (keys SYSLOG_LEVELS) ->
  In (log_level item, log_level_str item) SYSLOG_LEVELS
  /\ str_to_log_level (log_level_str item) = log_level item.
Proof.
  intros Hin. unfold log_level_str.
  destruct (in_syslog_levels _ Hin) as [E|[E|[E|E]]]; rewrite E;
    vm_compute; intuition.
Qed.

(** X1 at work: an item at [LOG_INFO]. *)
Lemma X1_level_name_round_trip_witness :
  let item := LogItem_init "fix pending" LOG_INFO "t" in
  In (log_level item) (keys SYSLOG_LEVELS)
  /\ In (log_level item, log_level_str item) SYSLOG_LEVELS
  /\ str_to_log_level (log_level_str item) = log_level item.
Proof.
  intro item.
  assert (H : In (log_level item) (keys SYSLOG_LEVELS)) by (simpl; auto).
  split; [exact H|]. exact (X1_level_name_round_trip item H).
Defined.

(** X2.  [str_to_log_level] ignores the case of its argument and gives
    either the level of the [SYSLOG_LEVELS] name the argument spells, or
    [DEFAULT_LOG_LEVEL] when it spells none; it never gives
    [CONSOLE_LOG_LEVEL]. *)
Theorem X2_str_to_log_level_range (s : string) :
  ((exists name,
       In (str_to_log_level s, name) SYSLOG_LEVELS /\ lower s = lower name)
   \/ (str_to_log_level s = DEFAULT_LOG_LEVEL
       /\ forall level name,
            In (level, name) SYSLOG_LEVELS -> lower s <> lower name))
  /\ str_to_log_level s <> CONSOLE_LOG_LEVEL.
Proof.
  destruct (str_to_log_level_cases s)
    as [[E ->]|[[E ->]|[[E ->]|[[E ->]|(E1 & E2 & E3 & E4 & ->)]]]];
    (split; [|discriminate]).
  - left. exists "ERROR". simpl. auto.
  - left. exists "WARNING". simpl. auto.
  - left. exists "INFO". simpl. auto 6.
  - left. exists "DEBUG". simpl. auto 6.
  - right. split; [reflexivity|]. intros level name Hin. simpl in Hin.
    destruct Hin as [H|[H|[H|[H|[]]]]]; injection H as <- <-; assumption.
Qed.

Lemma assign_log_level_filter_valid (v : Z) (self : OutputList) :
  In v (keys SYSLOG_LEVELS) ->
  fst (assign_log_level_filter v self) = Ok tt
  /\ log_level_filter (snd (assign_log_level_filter v self)) = v.
Proof.
  intros Hin. unfold assign_log_level_filter.
  replace (existsb (Z.eqb v) (keys SYSLOG_LEVELS)) with true.
  - destruct (Z.eqb_spec v (log_level_filter self)); cbn; auto.
  - symmetry. apply existsb_exists. exists v. split; [assumption|].
    apply Z.eqb_refl.
Qed.

(** X3.  Setting the filter from a string: when the string names a level,
    assigning [str_to_log_level] of it to [log_level_filter] returns and the
    filter is that level; when it names none, the assignment raises
    [TraitError] and leaves the object as it was. *)
Theorem X3_filter_from_string (self : OutputList) (s : string) :
  let v := str_to_log_level s in
  if v =? DEFAULT_LOG_LEVEL then
    assign_log_level_filter v self = (Raise TraitError, self)
  else
    In v (keys SYSLOG_LEVELS)
    /\ fst (assign_log_level_filter v self) = Ok tt
    /\ log_level_filter (snd (assign_log_level_filter v self)) = v.
Proof.
  intros v. subst v.
  destruct (str_to_log_level_cases s)
    as [[_ ->]|[[_ ->]|[[_ ->]|[[_ ->]|(_ & _ & _ & _ & ->)]]]];
    [| | | |reflexivity];
    match goal with
    | |- if ?a =? ?b then _ else _ =>
        change (a =? b) with false; cbv iota;
        assert (Hin : In a (keys SYSLOG_LEVELS)) by (simpl; auto 6);
        split; [exact Hin|now apply assign_log_level_filter_valid]
    end.
Qed.

Ltac known_level :=
  let H := fresh in
  intros [H ?]; exfalso; (apply H; simpl; auto 6) || congruence.

(** X4.  The level name shown for an item is ["UNKNOWN"] exactly when its
    level is none of the filterable levels and not [CONSOLE_LOG_LEVEL]; so
    the level [str_to_log_level] gives for an unknown name shows as
    ["UNKNOWN"]. *)
Theorem X4_unknown_level_name (item : LogItem) :
  (log_level_str item = "UNKNOWN"
   <-> ~ In (log_level item) (keys SYSLOG_LEVELS)
       /\ log_level item <> CONSOLE_LOG_LEVEL)
  /\ (log_level item = DEFAULT_LOG_LEVEL -> log_level_str item = "UNKNOWN").
Proof.
  unfold log_level_str.
  change ALL_LOG_LEVELS
    with [(LOG_ERROR, "ERROR"); (LOG_WARN, "WARNING"); (LOG_INFO, "INFO");
          (LOG_DEBUG, "DEBUG"); (CONSOLE_LOG_LEVEL, "CONSOLE")].
  cbn [dict_get]. simpl keys. generalize (log_level item) as l. intros l.
  destruct (Z.eqb_spec LOG_ERROR l) as [<-|H1];
    [split; [split; [discriminate|known_level]|discriminate]|].
  destruct (Z.eqb_spec LOG_WARN l) as [<-|H2];
    [split; [split; [discriminate|known_level]|discriminate]|].
  destruct (Z.eqb_spec LOG_INFO l) as [<-|H3];
    [split; [split; [discriminate|known_level]|discriminate]|].
  destruct (Z.eqb_spec LOG_DEBUG l) as [<-|H4];
    [split; [split; [discriminate|known_level]|discriminate]|].
  destruct (Z.eqb_spec CONSOLE_LOG_LEVEL l) as [<-|H5];
    [split; [split; [discriminate|known_level]|discriminate]|].
  split; [|reflexivity]. split; [|reflexivity]. intros _.
  split; [|congruence]. simpl. intuition congruence.
Qed.

(** X4 at work: the level of an unknown name. *)
Lemma X4_unknown_level_name_witness :
  let item := LogItem_init "?" (str_to_log_level "verbose") "t" in
  log_level item = DEFAULT_LOG_LEVEL /\ log_level_str item = "UNKNOWN".
Proof.
  intro item. assert (H : log_level item = DEFAULT_LOG_LEVEL) by reflexivity.
  split; [exact H|]. exact (proj2 (X4_unknown_level_name item) H).
Defined.

(** ** Appending, in every state *)

(** X5.  [append_truncate] with [max_len = m >= 0], by the length [n] of the
    list it is given: up to [m] items, the new item goes in front and nothing
    leaves; at [m + 1] items, the new item goes in front and the last (the
    oldest) leaves, so the length stays [m + 1]; beyond [m + 1] the assertion
    fails and the object is left as it was. *)
Theorem X5_append_truncate_by_length
  (b : buffer_ref) (s : LogItem) (self : OutputList) (m : Z) :
  max_len self = Some m -> 0 <= m ->
  let n := len (deref b self) in
  (n <= m ->
   append_truncate b s self = (Ok tt, assign b (s :: deref b self) self))
  /\ (n = m + 1 ->
      append_truncate b s self
      = (Ok tt, assign b (s :: removelast (deref b self)) self)
      /\ len (s :: removelast (deref b self)) = m + 1)
  /\ (m + 1 < n ->
      append_truncate b s self = (Raise AssertionError, self)).
Proof.
  intros Hmax Hm n. subst n. split; [|split]; intros Hn.
  - rewrite (append_truncate_push b s self m) by (auto; lia).
    now rewrite (push_room m) by assumption.
  - rewrite (append_truncate_push b s self m) by (auto; lia).
    rewrite <- (push_full m) by assumption. split; [reflexivity|].
    unfold push, len in *. rewrite length_firstn. simpl List.length. lia.
  - unfold append_truncate. rewrite Hmax.
    unfold bind, ret, raise, pop, insert0, modify.
    destruct (Z.gtb_spec (len (deref b self)) m); [|lia].
    destruct (Z.eqb_spec (len (deref b self) - m) 1); [lia|reflexivity].
Qed.

(** X5 at work: [max_len = 1] and a live list of three items. *)
Lemma X5_append_truncate_by_length_witness :
  let self :=
    set_unfiltered_list
      [LogItem_init "c" LOG_INFO "t3"; LogItem_init "b" LOG_INFO "t2";
       LogItem_init "a" LOG_INFO "t1"]
      (configured false (Some 1)) in
  1 + 1 < len (deref Unfiltered self)
  /\ append_truncate Unfiltered (LogItem_init "d" LOG_INFO "t4") self
     = (Raise AssertionError, self).
Proof.
  intro self. assert (H : 1 + 1 < len (deref Unfiltered self)) by reflexivity.
  split; [exact H|].
  apply (X5_append_truncate_by_length Unfiltered _ self 1);
    [reflexivity|lia|exact H].
Defined.

Lemma assign_deref b self : assign b (deref b self) self = self.
Proof. now destruct b, self. Qed.

(** Whatever [max_len] is, [append_truncate] leaves the object as it was
    but for the list it was given, which it leaves alone, or with the new
    item in front of it, or of it without its last item. *)
Lemma append_truncate_shape b s self :
  exists l,
    snd (append_truncate b s self) = assign b l self
    /\ (l = deref b self \/ l = s :: deref b self
        \/ l = s :: removelast (deref b self)).
Proof.
  unfold append_truncate. destruct (max_len self) as [m|];
    [|exists (deref b self); rewrite assign_deref; auto].
  unfold bind, ret, raise, pop, insert0, modify.
  destruct (len (deref b self) >? m).
  - destruct (len (deref b self) - m =? 1);
      [|exists (deref b self); rewrite assign_deref; auto].
    destruct (deref b self) as [|x l] eqn:Hd.
    + exists []. rewrite <- Hd, assign_deref. auto.
    + eexists. cbn [snd]. rewrite deref_assign, assign_assign. auto.
  - eexists. cbn [snd]. auto.
Qed.

Lemma append_truncate_raise_unchanged b s self e :
  fst (append_truncate b s self) = Raise e ->
  snd (append_truncate b s self) = self.
Proof.
  unfold append_truncate. destruct (max_len self) as [m|]; [|reflexivity].
  unfold bind, ret, raise, pop, insert0, modify.
  destruct (len (deref b self) >? m); [|discriminate].
  destruct (len (deref b self) - m =? 1); [|reflexivity].
  destruct (deref b self); [reflexivity|discriminate].
Qed.

(** X6.  With [max_len] set to [None], [write] and [write_level] of a
    non-blank string raise [TypeError] and leave the object as it was:
    nothing is appended and nothing is logged. *)
Theorem X6_max_len_none
  (self : OutputList) (s : string) (level : Z) (now : string) :
  max_len self = None -> nonblank s = true ->
  write s now self = (Raise TypeError, self)
  /\ write_level s level now self = (Raise TypeError, self).
Proof.
  intros Hmax Hs. rewrite write_unfold, write_level_unfold, Hs.
  assert (H : forall log, store log self = (Raise TypeError, self)).
  { intros log. unfold store. destruct (paused self);
      unfold bind, append_truncate; now rewrite Hmax. }
  unfold bind. now rewrite !H.
Qed.

(** X6 at work: a fresh object whose [max_len] was set to [None]. *)
Lemma X6_max_len_none_witness :
  let self := configured true None in
  write "hello" "t" self = (Raise TypeError, self)
  /\ write_level "hello" LOG_ERROR "t" self = (Raise TypeError, self).
Proof.
  intro self. apply (X6_max_len_none self "hello" LOG_ERROR "t"); reflexivity.
Defined.

Lemma store_paused log self :
  paused self = true ->
  exists l, snd (store log self) = set_paused_buffer l self.
Proof.
  intros Hp. unfold store. rewrite Hp.
  destruct (append_truncate_shape PausedBuffer log self) as (l & E & _).
  exists l. exact E.
Qed.

Lemma step_write_paused c self :
  paused self = true -> is_write c = true ->
  unfiltered_list (snd (step c self)) = unfiltered_list self
  /\ filtered_list (snd (step c self)) = filtered_list self
  /\ log_level_filter (snd (step c self)) = log_level_filter self
  /\ paused (snd (step c self)) = true.
Proof.
  intros Hp Hc. destruct c as [s now|s level now| | |]; try discriminate;
    simpl step.
  - rewrite write_unfold. destruct (nonblank s); [|simpl; auto].
    unfold bind.
    destruct (store_paused (LogItem_init s CONSOLE_LOG_LEVEL now) self Hp)
      as [l E].
    destruct (store _ self) as [[[]|e] self']; simpl in E; subst self';
      [|simpl; auto].
    cbn [tfile set_paused_buffer]. destruct (tfile self); simpl; auto.
  - rewrite write_level_unfold. destruct (nonblank s); [|simpl; auto].
    destruct (store_paused (LogItem_init s level now) self Hp) as [l E].
    rewrite E. simpl. auto.
Qed.

(** X7.  While [paused] is set, no sequence of [write] and [write_level]
    calls, whatever the strings, the levels and [max_len], changes the live
    list, the filtered list the table shows, the filter or the flag. *)
Theorem X7_paused_display_frozen (self : OutputList) (cs : list call) :
  paused self = true ->
  forallb is_write cs = true ->
  let self' := snd (run cs self) in
  unfiltered_list self' = unfiltered_list self
  /\ filtered_list self' = filtered_list self
  /\ log_level_filter self' = log_level_filter self
  /\ paused self' = true.
Proof.
  revert self. induction cs as [|c cs IH]; intros self Hp Hcs; [simpl; auto|].
  simpl in Hcs. apply andb_true_iff in Hcs as [Hc Hcs].
  destruct (step_write_paused c self Hp Hc) as (Hu & Hf & Ht & Hp').
  assert (E : snd (run (c :: cs) self) = snd (run cs (snd (step c self)))).
  { simpl. destruct (step c self) as [[[]|e] self1]; [reflexivity|].
    simpl. now destruct (run cs self1). }
  cbn zeta. rewrite E. destruct (IH _ Hp' Hcs) as (Hu' & Hf' & Ht' & Hp'').
  rewrite Hu', Hf', Ht', Hu, Hf, Ht. auto.
Qed.

(** X7 at work: paused with one entry shown, then three writes. *)
Lemma X7_paused_display_frozen_witness :
  let self :=
    snd (run [Write "shown" "t0"; SetPaused true] (OutputList_init false)) in
  filtered_list
    (snd (run [Write "a" "t1"; WriteLevel "b" LOG_ERROR "t2"; Write " " "t3"]
              self))
  = [LogItem_init "shown" CONSOLE_LOG_LEVEL "t0"].
Proof.
  intro self.
  destruct (X7_paused_display_frozen self
              [Write "a" "t1"; WriteLevel "b" LOG_ERROR "t2"; Write " " "t3"])
    as (_ & E & _); [reflexivity|reflexivity|rewrite E; reflexivity].
Defined.

(** ** Runs of writes while not paused *)

Lemma step_appended_unpaused m c item self :
  0 <= m -> within_cap m self -> paused self = false ->
  appended c = Some item ->
  exists self1,
    step c self = (Ok tt, self1)
    /\ within_cap m self1 /\ paused self1 = false
    /\ unfiltered_list self1 = push m item (unfiltered_list self)
    /\ filtered_list self1
       = (if matches_log_level_filter item (log_level_filter self)
          then push m item (filtered_list self) else filtered_list self)
    /\ log_level_filter self1 = log_level_filter self
    /\ _paused_buffer self1 = _paused_buffer self.
Proof.
  intros Hm Hcap Hp Hc.
  pose proof (step_within_cap m c self ltac:(lia) Hcap) as [_ Hcap1].
  destruct c as [s now|s level now| | |]; try discriminate;
    simpl in Hc; destruct (nonblank s) eqn:Hs; try discriminate;
    injection Hc as <-; simpl step in *.
  - rewrite (write_stored m) in * by assumption. unfold stored in *.
    rewrite Hp in *. eexists; split; [reflexivity|].
    split; [exact Hcap1|]. cbn [snd].
    destruct (tfile self); destruct (matches_log_level_filter _ _); cbn; auto 6.
  - rewrite (write_level_stored m) in * by assumption. unfold stored in *.
    rewrite Hp in *. eexists; split; [reflexivity|].
    split; [exact Hcap1|]. cbn [snd].
    destruct (matches_log_level_filter _ _); cbn; auto 6.
Qed.

Lemma fold_push_filter m (f : LogItem -> bool) items :
  forall l,
    fold_left (fun l s => if f s then push m s l else l) items l
    = fold_left (fun l s => push m s l) (filter f items) l.
Proof.
  induction items as [|s items IH]; intros l; [reflexivity|].
  simpl. destruct (f s); simpl; apply IH.
Qed.

Lemma run_unpaused_appends m cs :
  forall items self,
    0 <= m -> within_cap m self -> paused self = false ->
    map appended cs = map Some items ->
    exists self',
      run cs self = ([], self')
      /\ within_cap m self'
      /\ paused self' = false
      /\ unfiltered_list self'
         = fold_left (fun l s => push m s l) items (unfiltered_list self)
      /\ filtered_list self'
         = fold_left (fun l s =>
                        if matches_log_level_filter s (log_level_filter self)
                        then push m s l else l)
                     items (filtered_list self)
      /\ log_level_filter self' = log_level_filter self
      /\ _paused_buffer self' = _paused_buffer self.
Proof.
  induction cs as [|c cs IH]; intros items self Hm Hcap Hp Hmap.
  - destruct items; [|discriminate]. exists self. simpl. auto 10.
  - destruct items as [|item items]; [discriminate|].
    simpl in Hmap. injection Hmap as Hc Hmap.
    destruct (step_appended_unpaused m c item self Hm Hcap Hp Hc)
      as (self1 & E1 & Hcap1 & Hp1 & Hu1 & Hf1 & Ht1 & Hb1).
    destruct (IH items self1 Hm Hcap1 Hp1 Hmap)
      as (self' & E & Hcap' & Hp' & Hu' & Hf' & Ht' & Hb').
    exists self'. simpl run. rewrite E1, E. simpl fold_left.
    rewrite Hu', Hu1, Hf', Hf1, Ht', Ht1, Hb', Hb1. auto 10.
Qed.

(** X8.  From an unpaused object under the cap of a [max_len = m >= 0], a
    run of calls that append the items [items] raises nothing and leaves, as
    live list, the [m + 1] newest of the items and the old live list, and, as
    filtered list, the [m + 1] newest of the items that pass the filter and
    the old filtered list: each list keeps its own newest [m + 1]. *)
Theorem X8_unpaused_appends
  (m : Z) (self : OutputList) (cs : list call) (items : list LogItem) :
  0 <= m ->
  within_cap m self ->
  paused self = false ->
  map appended cs = map Some items ->
  let self' := snd (run cs self) in
  fst (run cs self) = []
  /\ unfiltered_list self'
     = firstn (Z.to_nat (m + 1)) (rev items ++ unfiltered_list self)
  /\ filtered_list self'
     = firstn (Z.to_nat (m + 1))
         (filtered_view (log_level_filter self) (rev items)
          ++ filtered_list self)
  /\ log_level_filter self' = log_level_filter self
  /\ _paused_buffer self' = _paused_buffer self.
Proof.
  intros Hm Hcap Hp Hmap.
  destruct (run_unpaused_appends m cs items self Hm Hcap Hp Hmap)
    as (self' & E & _ & _ & Hu & Hf & Ht & Hb).
  cbn zeta. rewrite E. cbn [fst snd]. rewrite Hu, Hf.
  rewrite fold_push_filter, !fold_push by (auto; apply Hcap).
  unfold filtered_view. rewrite filter_rev. auto.
Qed.

(** X8 at work: [max_len = 0], the filter at [LOG_ERROR]; an error, then a
    debug message.  The live list holds the debug message only, the
    filtered list still shows the error. *)
Lemma X8_unpaused_appends_witness :
  let self := configured false (Some 0) in
  let self' :=
    snd (run [WriteLevel "e" LOG_ERROR "t1"; WriteLevel "d" LOG_DEBUG "t2"]
             self) in
  unfiltered_list self' = [LogItem_init "d" LOG_DEBUG "t2"]
  /\ filtered_list self' = [LogItem_init "e" LOG_ERROR "t1"].
Proof.
  intros self self'.
  destruct (X8_unpaused_appends 0 self
              [WriteLevel "e" LOG_ERROR "t1"; WriteLevel "d" LOG_DEBUG "t2"]
              [LogItem_init "e" LOG_ERROR "t1"; LogItem_init "d" LOG_DEBUG "t2"])
    as (_ & Eu & Ef & _); [lia| | | |].
  - constructor; simpl; auto; unfold len; simpl; lia.
  - reflexivity.
  - reflexivity.
  - subst self'. rewrite Eu, Ef. split; reflexivity.
Defined.

(** X9.  Once the live list is more than one item over [max_len] (as after
    [max_len] is lowered), writing cannot shorten it: while not paused, every
    call that would append raises [AssertionError] and leaves the object as
    it was. *)
Theorem X9_overlong_list_is_stuck
  (m : Z) (self : OutputList) (cs : list call) (items : list LogItem) :
  max_len self = Some m ->
  m + 1 < len (unfiltered_list self) ->
  paused self = false ->
  map appended cs = map Some items ->
  run cs self = (repeat AssertionError (List.length cs), self).
Proof.
  intros Hmax Hlen Hp. revert items.
  assert (Hstore : forall log, store log self = (Raise AssertionError, self)).
  { intros log. unfold store. rewrite Hp. unfold bind, append_truncate.
    rewrite Hmax. unfold bind, ret, raise, pop, insert0, modify.
    cbn [deref].
    destruct (Z.gtb_spec (len (unfiltered_list self)) m); [|lia].
    destruct (Z.eqb_spec (len (unfiltered_list self) - m) 1); [lia|].
    reflexivity. }
  induction cs as [|c cs IH]; intros items Hmap; [reflexivity|].
  destruct items as [|item items]; [discriminate|].
  simpl in Hmap. injection Hmap as Hc Hmap.
  assert (E : step c self = (Raise AssertionError, self)).
  { destruct c as [s now|s level now| | |]; try discriminate;
      simpl in Hc; destruct (nonblank s) eqn:Hs; try discriminate; simpl step.
    - rewrite write_unfold, Hs. unfold bind. now rewrite Hstore.
    - rewrite write_level_unfold, Hs. apply Hstore. }
  simpl. rewrite E, (IH items Hmap). reflexivity.
Qed.

(** X9 at work: three items under [max_len = 0]. *)
Lemma X9_overlong_list_is_stuck_witness :
  let self :=
    set_unfiltered_list
      [LogItem_init "c" LOG_INFO "t3"; LogItem_init "b" LOG_INFO "t2";
       LogItem_init "a" LOG_INFO "t1"]
      (configured false (Some 0)) in
  run [Write "x" "t4"; WriteLevel "y" LOG_ERROR "t5"] self
  = ([AssertionError; AssertionError], self).
Proof.
  intro self.
  apply (X9_overlong_list_is_stuck 0 self
           [Write "x" "t4"; WriteLevel "y" LOG_ERROR "t5"]
           [LogItem_init "x" CONSOLE_LOG_LEVEL "t4";
            LogItem_init "y" LOG_ERROR "t5"]); reflexivity.
Defined.

Lemma run_within_cap m cs :
  forall self, -1 <= m -> within_cap m self -> within_cap m (snd (run cs self)).
Proof.
  induction cs as [|c cs IH]; intros self Hm Hcap; [exact Hcap|].
  pose proof (step_within_cap m c self Hm Hcap) as [_ Hcap1].
  simpl. destruct (step c self) as [[[]|e] self1]; simpl in Hcap1.
  - now apply IH.
  - specialize (IH self1 Hm Hcap1). now destruct (run cs self1).
Qed.

(** X10.  [clear] brings any object back under the cap: whatever its lists
    held, if its [max_len] is an int [m >= -1] then after [clear] and any
    further calls the three lists hold at most [m + 1] items and no call
    fails the assertion. *)
Theorem X10_clear_restores_cap
  (m : Z) (self : OutputList) (cs : list call) (c : call) :
  max_len self = Some m ->
  -1 <= m ->
  In (log_level_filter self) (keys SYSLOG_LEVELS) ->
  let self' := snd (run (Clear :: cs) self) in
  len (unfiltered_list self') <= m + 1
  /\ len (_paused_buffer self') <= m + 1
  /\ len (filtered_list self') <= m + 1
  /\ fst (step c self') <> Raise AssertionError.
Proof.
  intros Hmax Hm Hin.
  assert (Hcap0 : within_cap m (snd (clear self))).
  { constructor; cbn; rewrite ?len_nil; auto; lia. }
  assert (Hcap : within_cap m (snd (run (Clear :: cs) self))).
  { change (run (Clear :: cs) self) with (run cs (snd (clear self))).
    now apply run_within_cap. }
  cbn zeta. destruct (step_within_cap m c _ Hm Hcap) as [Hno _].
  destruct Hcap. auto.
Qed.

(** X10 at work: the stuck object of X9 after [clear]. *)
Lemma X10_clear_restores_cap_witness :
  let self :=
    set_unfiltered_list
      [LogItem_init "c" LOG_INFO "t3"; LogItem_init "b" LOG_INFO "t2";
       LogItem_init "a" LOG_INFO "t1"]
      (configured false (Some 0)) in
  let self' := snd (run [Clear; Write "x" "t4"] self) in
  len (unfiltered_list self') <= 0 + 1
  /\ len (_paused_buffer self') <= 0 + 1
  /\ len (filtered_list self') <= 0 + 1
  /\ fst (step (Write "y" "t5") self') <> Raise AssertionError.
Proof.
  intro self.
  apply (X10_clear_restores_cap 0 self [Write "x" "t4"] (Write "y" "t5"));
    [reflexivity|lia|simpl; auto].
Defined.

(** ** What no call touches *)

Lemma assign_frame b l self :
  logfile (assign b l self) = logfile self
  /\ tfile (assign b l self) = tfile self
  /\ max_len (assign b l self) = max_len self
  /\ paused (assign b l self) = paused self
  /\ log_level_filter (assign b l self) = log_level_filter self.
Proof. destruct b; simpl; auto. Qed.

(** Storing an item leaves the log file, the flags, [max_len] and the filter
    alone, and the filtered list holds what it held, with or without its
    last item, and with the new item in front only if the item passes. *)
Lemma store_frame log self :
  let self' := snd (store log self) in
  logfile self' = logfile self
  /\ tfile self' = tfile self
  /\ log_level_filter self' = log_level_filter self
  /\ (filtered_list self' = filtered_list self
      \/ matches_log_level_filter log (log_level_filter self) = true
         /\ (filtered_list self' = log :: filtered_list self
             \/ filtered_list self' = log :: removelast (filtered_list self))).
Proof.
  cbn zeta. unfold store. destruct (paused self).
  - destruct (append_truncate_shape PausedBuffer log self) as (l & -> & _).
    simpl. auto.
  - unfold bind.
    destruct (append_truncate_shape Unfiltered log self) as (l & E & _).
    destruct (append_truncate Unfiltered log self) as [[[]|e] self1];
      simpl in E; subst self1; [|simpl; auto].
    cbn [log_level_filter set_unfiltered_list assign].
    destruct (matches_log_level_filter log (log_level_filter self)) eqn:Hm;
      [|simpl; auto].
    destruct (append_truncate_shape Filtered log (set_unfiltered_list l self))
      as (l' & -> & Hl'). simpl in *.
    repeat split; auto.
    destruct Hl' as [->|[->| ->]]; auto.
Qed.

Lemma step_logfile c self :
  tfile (snd (step c self)) = tfile self
  /\ (logfile (snd (step c self)) = logfile self
      \/ tfile self = true
         /\ exists s now,
              c = Write s now /\ nonblank s = true
              /\ fst (step c self) = Ok tt
              /\ logfile (snd (step c self))
                 = (logfile self
                    ++ [print_to_log (LogItem_init s CONSOLE_LOG_LEVEL now)])%list).
Proof.
  destruct c as [s now|s level now| |v|v]; simpl step.
  - rewrite write_unfold. destruct (nonblank s) eqn:Hs; [|simpl; auto].
    unfold bind.
    destruct (store_frame (LogItem_init s CONSOLE_LOG_LEVEL now) self)
      as (Hl & Ht & _).
    destruct (store _ self) as [[[]|e] self']; simpl in Hl, Ht; [|simpl; auto].
    rewrite Ht. destruct (tfile self) eqn:Htf; simpl; [|auto].
    split; [assumption|]. right. split; [reflexivity|].
    exists s, now. rewrite Hl. auto.
  - rewrite write_level_unfold. destruct (nonblank s); [|simpl; auto].
    destruct (store_frame (LogItem_init s level now) self) as (Hl & Ht & _).
    auto.
  - simpl. auto.
  - unfold assign_log_level_filter. destruct (existsb _ _); [|simpl; auto].
    destruct (v =? log_level_filter self); simpl; auto.
  - unfold assign_paused. destruct (Bool.eqb v (paused self)); [simpl; auto|].
    unfold _paused_changed, bind, modify; simpl. destruct v; simpl; auto.
Qed.

(** X11.  The log file only grows, and only by console entries: after any
    sequence of calls, raising or not, it holds what it held followed by
    texts [timestamp,-1,message] that [write] logged for non-blank strings,
    at most one for each writing call; without [tfile] nothing is added. *)
Theorem X11_logfile_append_only (cs : list call) (self : OutputList) :
  exists added,
    logfile (snd (run cs self)) = (logfile self ++ added)%list
    /\ Forall console_entry added
    /\ (List.length added <= List.length (filter is_write cs))%nat
    /\ (tfile self = false -> added = []).
Proof.
  revert self. induction cs as [|c cs IH]; intros self.
  - exists []. simpl. rewrite app_nil_r. auto.
  - assert (E : snd (run (c :: cs) self) = snd (run cs (snd (step c self)))).
    { simpl. destruct (step c self) as [[[]|e] self1]; [reflexivity|].
      simpl. now destruct (run cs self1). }
    rewrite E. destruct (IH (snd (step c self))) as (added & Hl & Hf & Hn & Ht).
    destruct (step_logfile c self)
      as [Htf [Hsame|(Hon & s & now & -> & Hs & _ & Hone)]].
    + exists added. rewrite Hl, Hsame. repeat split; auto.
      * simpl. destruct (is_write c); simpl; lia.
      * intros H. apply Ht. congruence.
    + exists (print_to_log (LogItem_init s CONSOLE_LOG_LEVEL now) :: added).
      rewrite Hl, Hone, <- app_assoc. repeat split; auto.
      * constructor; [|assumption]. now exists s, now.
      * simpl. lia.
      * congruence.
Qed.

(** ** What the table shows *)

Lemma Forall_removelast {A} (P : A -> Prop) l :
  Forall P l -> Forall P (removelast l).
Proof.
  induction 1 as [|x l Hx Hl IH]; [constructor|].
  simpl. destruct l; [constructor|]. now constructor.
Qed.

Lemma Forall_filter_pass {A} (f : A -> bool) l :
  Forall (fun x => f x = true) (filter f l).
Proof. apply Forall_forall. intros x Hx. now apply filter_In in Hx. Qed.

Lemma store_shown_pass log self :
  shown_pass self -> shown_pass (snd (store log self)).
Proof.
  unfold shown_pass. intros H.
  destruct (store_frame log self) as (_ & _ & -> & [->|[Hm [->| ->]]]);
    auto using Forall_removelast.
Qed.

Lemma step_shown_pass c self :
  shown_pass self -> shown_pass (snd (step c self)).
Proof.
  intros H. destruct c as [s now|s level now| |v|v]; simpl step.
  - rewrite write_unfold. destruct (nonblank s); [|exact H].
    unfold bind.
    pose proof (store_shown_pass (LogItem_init s CONSOLE_LOG_LEVEL now) self H)
      as H1.
    destruct (store _ self) as [[[]|e] self']; simpl in *; [|exact H1].
    now destruct (tfile self').
  - rewrite write_level_unfold. destruct (nonblank s); [|exact H].
    now apply store_shown_pass.
  - constructor.
  - unfold assign_log_level_filter. destruct (existsb _ _); [|exact H].
    destruct (v =? log_level_filter self); [exact H|].
    apply Forall_filter_pass.
  - unfold assign_paused. destruct (Bool.eqb v (paused self)); [exact H|].
    unfold _paused_changed, bind, modify; simpl. destruct v; simpl.
    + exact H.
    + apply Forall_filter_pass.
Qed.

(** X12.  In every state a fresh object reaches, whatever [max_len] is and
    whichever calls raised, every entry of the filtered list (the one the
    table shows) has a level at most the current filter threshold. *)
Theorem X12_shown_entries_pass
  (tf : bool) (m : option Z) (self : OutputList) :
  reachable tf m self ->
  Forall (fun e => log_level e <= log_level_filter self) (filtered_list self).
Proof.
  intros Hr. assert (H : shown_pass self).
  { induction Hr as [|self c _ IH]; [constructor|].
    now apply step_shown_pass. }
  unfold shown_pass, matches_log_level_filter in H.
  eapply Forall_impl; [|exact H]. intros e He. now apply Z.leb_le.
Qed.

(** X12 at work: messages at three levels, then the filter lowered. *)
Lemma X12_shown_entries_pass_witness :
  let self := snd (step (SetLogLevelFilter LOG_WARN)
               (snd (step (Write "c" "t3")
                 (snd (step (WriteLevel "e" LOG_ERROR "t2")
                   (snd (step (WriteLevel "d" LOG_DEBUG "t1")
                     (snd (step (SetLogLevelFilter LOG_DEBUG)
                       (configured false (Some 250))))))))))) in
  Forall (fun e => log_level e <= log_level_filter self) (filtered_list self).
Proof.
  intros self. apply (X12_shown_entries_pass false (Some 250) self).
  repeat apply reachable_step. apply reachable_init.
Defined.

(** * Further properties of settings_report.py *)

Section SettingsReportRuns.

#[local] Set Default Proof Using "Type".

Variable py_str : value -> string.
Variable json_dumps : value -> value -> result string.
Variable requests_post :
  string -> list (string * string) -> string -> result Z.

Lemma post_data_network_calls uuid data :
  (List.length (network_calls (fst (post_data json_dumps requests_post uuid data)))
   <= 1)%nat.
Proof.
  unfold post_data. destruct (isinstance_str uuid); simpl; [|lia].
  destruct (isinstance_dict data); simpl; [|lia].
  destruct (json_dumps uuid data) as [body|e]; simpl; [|lia].
  destruct (requests_post URL HEADERS body) as [status|e]; simpl; [|lia].
  destruct (negb (status =? codes_ok)); simpl; lia.
Qed.

(** X13.  Whatever the settings and whatever the libraries do,
    [report_settings] calls the network at most once. *)
Theorem X13_at_most_one_network_call (settings : value) :
  (List.length
     (network_calls
        (fst (report_settings py_str json_dumps requests_post settings)))
   <= 1)%nat.
Proof.
  unfold report_settings, try_except, io_bind, io_lift, print.
  destruct (getitem settings "system_info") as [system_info|e]; simpl; [|lia].
  destruct (getitem system_info "uuid") as [uuid|e]; simpl; [|lia].
  destruct (dict_values_to_strings py_str settings) as [data|e]; simpl; [|lia].
  pose proof (post_data_network_calls (VStr (py_str uuid)) data) as H.
  destruct (post_data json_dumps requests_post (VStr (py_str uuid)) data)
    as [tr [[]|e]]; simpl in *; unfold network_calls in *;
    rewrite filter_app; simpl; rewrite length_app; simpl; lia.
Qed.

(** X14.  When the settings lack ["system_info"], or that lacks ["uuid"] or
    is no dict, or [dict_values_to_strings] raises on the settings,
    [report_settings] prints its two lines, start and failure, calls no
    network and returns. *)
Theorem X14_malformed_settings_not_sent (settings : value) :
  (exists e, getitem settings "system_info" = Raise e)
  \/ (exists system_info e,
         getitem settings "system_info" = Ok system_info
         /\ getitem system_info "uuid" = Raise e)
  \/ (exists e, dict_values_to_strings py_str settings = Raise e) ->
  report_settings py_str json_dumps requests_post settings
  = ([Print "reporting settings";
      Print "report settings: failed to report settings"], Ok tt).
Proof.
  unfold report_settings, try_except, io_bind, io_lift, print.
  intros [[e H]|[(system_info & e & H1 & H2)|[e H]]].
  - now rewrite H.
  - now rewrite H1, H2.
  - destruct (getitem settings "system_info") as [system_info|e1];
      [|reflexivity].
    destruct (getitem system_info "uuid") as [uuid|e2]; [|reflexivity].
    now rewrite H.
Qed.

(** X15.  On a settings dict with string keys at every depth whose
    ["system_info"] holds a ["uuid"], when [json.dumps] gives [body]:
    [report_settings] prints its start line, posts [body] once to the fixed
    URL with the fixed headers, and then, if the post raised, prints the
    failure line; otherwise it prints ["reported settings"], after
    ["post data: failed to post data"] when the status is not 200.  It
    returns in every case. *)
Theorem X15_report_settings_sends
  (items : list (value * value)) (system_info uuid : value) (body : string) :
  let settings := VDict items in
  getitem settings "system_info" = Ok system_info ->
  getitem system_info "uuid" = Ok uuid ->
  str_keys settings = true ->
  unique_keys settings ->
  json_dumps (VStr (py_str uuid)) (strings_of py_str settings) = Ok body ->
  report_settings py_str json_dumps requests_post settings
  = ([Print "reporting settings"; HttpPost URL HEADERS body]
       ++ match requests_post URL HEADERS body with
          | Ok status =>
              (if status =? 200 then []
               else [Print "post data: failed to post data"])
                ++ [Print "reported settings"]
          | Raise _ => [Print "report settings: failed to report settings"]
          end,
     Ok tt)%list.
Proof.
  intros settings H1 H2 Hs Hu Hj.
  unfold report_settings, try_except, io_bind, io_lift, print.
  rewrite H1, H2.
  rewrite (dict_values_to_strings_strings_of py_str settings Hs Hu eq_refl).
  unfold post_data, io_bind, io_lift, post. cbn [isinstance_str negb].
  replace (isinstance_dict (strings_of py_str settings)) with true
    by reflexivity.
  cbn [negb]. rewrite Hj.
  destruct (requests_post URL HEADERS body) as [status|e]; [|reflexivity].
  unfold codes_ok. destruct (status =? 200); reflexivity.
Qed.

Hypothesis py_str_str : forall s, py_str (VStr s) = s.

Lemma strings_of_idempotent d :
  strings_of py_str (strings_of py_str d) = strings_of py_str d.
Proof using py_str_str.
  induction d as [v Hv|items IH] using value_dict_ind.
  - destruct v; try discriminate; simpl; now rewrite py_str_str.
  - simpl. f_equal. rewrite map_map.
    induction IH as [|[k v] rest Hv _ IHrest]; [reflexivity|].
    simpl in *. now rewrite Hv, IHrest.
Qed.

Lemma str_keys_strings_of d :
  str_keys d = true -> str_keys (strings_of py_str d) = true.
Proof.
  induction d as [v Hv|items IH] using value_dict_ind; intros Hs.
  - now destruct v.
  - simpl in *. induction IH as [|[k v] rest Hv _ IHrest]; [reflexivity|].
    simpl in *. apply andb_true_iff in Hs as [Hs Hsr].
    apply andb_true_iff in Hs as [Hk Hsv].
    now rewrite Hk, Hv, IHrest.
Qed.

Lemma unique_keys_strings_of d :
  unique_keys d -> unique_keys (strings_of py_str d).
Proof.
  induction d as [v Hv|items IH] using value_dict_ind; intros Hu.
  - now destruct v.
  - simpl in *. destruct Hu as [Hnd Hall]. split.
    + rewrite map_map. erewrite map_ext; [exact Hnd|]. now intros [k v].
    + clear Hnd. induction IH as [|[k v] rest Hv _ IHrest]; [exact I|].
      simpl in *. destruct Hall as [Huv Hur].
      split; [exact (Hv Huv)|exact (IHrest Hur)].
Qed.

(** X16.  [dict_values_to_strings] is idempotent: where the string form of
    a string is the string itself, converting the result of a conversion
    again returns and gives that result back. *)
Theorem X16_conversion_idempotent (items : list (value * value)) (c : value) :
  str_keys (VDict items) = true ->
  unique_keys (VDict items) ->
  dict_values_to_strings py_str (VDict items) = Ok c ->
  dict_values_to_strings py_str c = Ok c.
Proof using py_str_str.
  intros Hs Hu E.
  rewrite (dict_values_to_strings_strings_of py_str _ Hs Hu eq_refl) in E.
  assert (Ec : c = strings_of py_str (VDict items)) by congruence.
  rewrite Ec.
  rewrite (dict_values_to_strings_strings_of py_str
             (strings_of py_str (VDict items)));
    auto using str_keys_strings_of, unique_keys_strings_of.
  now rewrite strings_of_idempotent.
Qed.

End SettingsReportRuns.

(** X14 at work: settings without ["system_info"]. *)
Lemma X14_malformed_settings_not_sent_witness :
  let dumps := fun _ _ : value => Ok "[]" in
  let post := fun (_ : string) (_ : list (string * string)) (_ : string) =>
                @Ok Z 200 in
  let settings := VDict [(VStr "solution", VDict [(VStr "soln_freq", VInt 10)])] in
  getitem settings "system_info" = Raise KeyError
  /\ report_settings example_str dumps post settings
     = ([Print "reporting settings";
         Print "report settings: failed to report settings"], Ok tt).
Proof.
  intros dumps post settings.
  assert (H : getitem settings "system_info" = Raise KeyError) by reflexivity.
  split; [exact H|].
  apply (X14_malformed_settings_not_sent example_str dumps post settings).
  left. exists KeyError. exact H.
Defined.

(** X15 at work: a uuid and one setting, the server answering 500. *)
Lemma X15_report_settings_sends_witness :
  let dumps := fun _ _ : value => Ok "[...]" in
  let post := fun (_ : string) (_ : list (string * string)) (_ : string) =>
                @Ok Z 500 in
  let settings :=
    VDict [(VStr "system_info", VDict [(VStr "uuid", VInt 77)]);
           (VStr "solution", VDict [(VStr "soln_freq", VInt 10)])] in
  report_settings example_str dumps post settings
  = ([Print "reporting settings"; HttpPost URL HEADERS "[...]";
      Print "post data: failed to post data"; Print "reported settings"],
     Ok tt).
Proof.
  intros dumps post settings.
  apply (X15_report_settings_sends example_str dumps post
           [(VStr "system_info", VDict [(VStr "uuid", VInt 77)]);
            (VStr "solution", VDict [(VStr "soln_freq", VInt 10)])]
           (VDict [(VStr "uuid", VInt 77)]) (VInt 77) "[...]");
    try reflexivity.
  simpl. repeat split; repeat constructor; simpl; intuition discriminate.
Defined.

(** X16 at work: a nested dict converted twice. *)
Lemma X16_conversion_idempotent_witness :
  let c := VDict [(VStr "a", VStr "3"); (VStr "b", VDict [(VStr "c", VStr "None")])] in
  dict_values_to_strings example_str c = Ok c.
Proof.
  intro c.
  apply (X16_conversion_idempotent example_str (fun s => eq_refl)
           [(VStr "a", VInt 3); (VStr "b", VDict [(VStr "c", VNone)])] c);
    try reflexivity.
  simpl. repeat split; repeat constructor; simpl; intuition discriminate.
Defined.
